(** * Worker-SWR-Plugin: stale-while-revalidate over a key-value store

    A shallow embedding of [src/helpers/kv.ts] (the store adapter) and of
    [src/swr.ts] (the decision engine and the revalidation protocol), with
    the properties of the specification stated over it.

    Conventions of the model.
    - JavaScript numbers are integers ([Z]) extended with [NaN] (module
      [JS]).  Up to [JS.MAX_SAFE_INTEGER] the integers are doubles and this
      is the arithmetic of the code; beyond it doubles round, which module
      [Double] shows on the two expressions of [helpers/kv.ts] that
      compute with the TTL.
    - The Workers runtime is a [World]: the KV namespace, the wall clock,
      the origin server and a trace of every interaction performed so far
      (KV calls, fetches, [waitUntil] registrations, console lines).
    - An [async] function is a computation in the state monad [M] over the
      world.  The promise returned by [revalidate()] is a [Task]: the code
      runs up to its first [await] when it is called (the log line and the
      issued fetch) and is resumed later with [resume]. *)

From Stdlib Require Import ZArith Lia PrimFloat SpecFloat FloatOps Uint63.
From stdpp Require Import base option list strings gmap.

Local Open Scope string_scope.
Local Open Scope Z_scope.
Local Open Scope list_scope.

(** ** JavaScript numbers *)

Module JS.

Inductive number : Type :=
| Num (z : Z)
| NaN.

(** [a - b] *)
Definition sub (a b : number) : number :=
  match a, b with
  | Num x, Num y => Num (x - y)
  | _, _ => NaN
  end.

(** [Math.floor(a / d)] for a positive integer literal [d] *)
Definition floor_div (a : number) (d : Z) : number :=
  match a with
  | Num x => Num (x / d)
  | NaN => NaN
  end.

(** [Math.max(a, b)]: NaN as soon as one argument is NaN *)
Definition max (a b : number) : number :=
  match a, b with
  | Num x, Num y => Num (Z.max x y)
  | _, _ => NaN
  end.

(** [a < b]: false as soon as one argument is NaN *)
Definition ltb (a b : number) : bool :=
  match a, b with
  | Num x, Num y => x <? y
  | _, _ => false
  end.

(** [a >= b]: false as soon as one argument is NaN *)
Definition geb (a b : number) : bool :=
  match a, b with
  | Num x, Num y => y <=? x
  | _, _ => false
  end.

(** [Number.MAX_SAFE_INTEGER], [2^53 - 1]: integers up to it are doubles,
    and sums, differences and floored quotients that stay below it are
    computed exactly by the code. *)
Definition MAX_SAFE_INTEGER : Z := 9007199254740991.

End JS.

(** ** The same arithmetic in binary64

    The two expressions of [helpers/kv.ts] that compute with the TTL, on
    the doubles of the runtime. *)

Module Double.

(** [Math.floor]: a double whose exponent is not negative is an integer
    already; otherwise the mantissa is divided, rounding down. *)
Definition Math_floor (x : float) : float :=
  match Prim2SF x with
  | S754_finite s m e =>
      if 0 <=? e then x
      else
        let q := (if s then Z.neg m else Z.pos m) / 2 ^ (- e) in
        if q <? 0
        then PrimFloat.opp (of_uint63 (Uint63.of_Z (- q)))
        else of_uint63 (Uint63.of_Z q)
  | _ => x
  end.

(** [Math.max] of two numbers *)
Definition Math_max (x y : float) : float :=
  if PrimFloat.is_nan x || PrimFloat.is_nan y then nan
  else if PrimFloat.ltb x y then y
  else if PrimFloat.ltb y x then x
  else if PrimFloat.is_zero x then PrimFloat.add x y
  else x.

(** [new Date().getTime() + ttl * 1000] of [put] *)
Definition expireAt (now ttl : float) : float :=
  PrimFloat.add now (PrimFloat.mul ttl 1000%float).

(** [Math.max(Math.floor((res.expireAt - new Date().getTime()) / 1000), 0)]
    of [match], for a record that has an [expireAt] *)
Definition remainingTime (expireAt now : float) : float :=
  Math_max (Math_floor (PrimFloat.div (PrimFloat.sub expireAt now) 1000%float)) 0%float.

End Double.

(** ** Requests and responses *)

Record Request : Type := { url : string; method : string }.

(** [headers] is what [response.headers.entries()] yields.  The platform
    yields the names in lower case and in order, with the values of a
    repeated name joined into one entry (but for [set-cookie], which keeps
    one entry per value); the type admits every list. *)
Module Response.
Record t : Type := { status : Z; headers : list (string * string); body : string }.
End Response.

Inductive FetchResult : Type :=
| Fetched (res : Response.t)
| NetworkError.

(** ** The stored JSON value

    [kv.get(key, {type: 'json'})] yields the parsed JSON object.  The code
    reads four of its keys; each may be missing ([None] is [undefined]),
    and when present it carries the type its declaration gives it.
    [CachedData] is the shape with [expireAt], [CachedDataDeprecated] the
    one with [cacheTtl].  Stored values that are not JSON objects, or that
    hold a key with another type than its declaration, are outside the
    model; on several of them the code throws. *)
Module Cached.
Record t : Type := {
  headers : option (gmap string string);
  body : option string;
  expireAt : option Z;
  cacheTtl : option string
}.
End Cached.

Definition CachedData (headers : gmap string string) (body : string) (expireAt : Z) : Cached.t :=
  {| Cached.headers := Some headers; Cached.body := Some body;
     Cached.expireAt := Some expireAt; Cached.cacheTtl := None |}.

Definition CachedDataDeprecated (headers : gmap string string) (body : string) (cacheTtl : string) : Cached.t :=
  {| Cached.headers := Some headers; Cached.body := Some body;
     Cached.expireAt := None; Cached.cacheTtl := Some cacheTtl |}.

(** ** The world *)

(** A KV entry: the value and the [expirationTtl] hint given with it.  The
    backend's own reaping of entries is outside the model. *)
Record KVEntry : Type := { value : Cached.t; expirationTtl : Z }.

(** The promise of a [revalidate()] call that has issued its fetch. *)
Record Task : Type := { target : Request; arriving : FetchResult }.

Inductive Event : Type :=
| KVGet (key : string)
| KVPut (key : string) (v : Cached.t) (hint : Z)
| KVDelete (key : string)
| Fetch (req : Request)
| WaitUntil (t : Task)
| ConsoleLog (msg : string).

(** [origin n req] is the answer of the origin to [req] when [n] fetches
    were issued before it: two fetches of one request are independent. *)
Record World : Type := {
  kv : gmap string KVEntry;
  now : Z;
  origin : nat -> Request -> FetchResult;
  trace : list Event
}.

Definition emit (e : Event) (w : World) : World :=
  {| kv := kv w; now := now w; origin := origin w; trace := trace w ++ [e] |}.

Definition set_kv (m : gmap string KVEntry) (w : World) : World :=
  {| kv := m; now := now w; origin := origin w; trace := trace w |}.

Definition fetches (tr : list Event) : list Request :=
  omap (fun e => match e with Fetch r => Some r | _ => None end) tr.

Definition scheduled (tr : list Event) : list Task :=
  omap (fun e => match e with WaitUntil t => Some t | _ => None end) tr.

Definition kv_reads (tr : list Event) : list string :=
  omap (fun e => match e with KVGet k => Some k | _ => None end) tr.

(** The keys of the KV calls that change the namespace, and of all KV
    calls. *)
Definition kv_writes (tr : list Event) : list string :=
  omap (fun e => match e with KVPut k _ _ | KVDelete k => Some k | _ => None end) tr.

Definition kv_keys (tr : list Event) : list string :=
  omap (fun e => match e with KVGet k | KVPut k _ _ | KVDelete k => Some k | _ => None end) tr.

(** The hints of the [kv.put] calls. *)
Definition kv_hints (tr : list Event) : list Z :=
  omap (fun e => match e with KVPut _ _ h => Some h | _ => None end) tr.

(** The environment lets [d] milliseconds pass. *)
Definition tick (d : Z) (w : World) : World :=
  {| kv := kv w; now := now w + d; origin := origin w; trace := trace w |}.

(** ** The monad of asynchronous computations *)

Definition M (A : Type) : Type := World -> A * World.

Definition ret {A} (a : A) : M A := fun w => (a, w).

Definition bind {A B} (m : M A) (k : A -> M B) : M B :=
  fun w => let (a, w') := m w in k a w'.

Declare Scope swr_scope.
Delimit Scope swr_scope with swr.
Notation "'await' x <- c ; k" := (bind c (fun x => k))
  (at level 10, x pattern, c at level 100, k at level 200) : swr_scope.
Notation "'exec' c ; k" := (bind c (fun _ => k))
  (at level 10, c at level 100, k at level 200) : swr_scope.
Local Open Scope swr_scope.

(** ** Runtime primitives *)

(** [new Date().getTime()] *)
Definition Date_now : M Z := fun w => (now w, w).

(** [fetch(req)] *)
Definition fetch (req : Request) : M FetchResult :=
  fun w => (origin w (length (fetches (trace w))) req, emit (Fetch req) w).

(** [context.waitUntil(promise)] *)
Definition waitUntil (t : Task) : M unit := fun w => (tt, emit (WaitUntil t) w).

Definition console_log (msg : string) : M unit := fun w => (tt, emit (ConsoleLog msg) w).

(** [KVNamespace].  [put] receives the JSON text of an object and [get]
    parses it back: the namespace holds the object itself.  KV calls are
    taken to succeed. *)
Module KVNamespace.

Definition get (key : string) : M (option Cached.t) :=
  fun w => (value <$> kv w !! key, emit (KVGet key) w).

Definition put (key : string) (v : Cached.t) (expirationTtl : Z) : M unit :=
  fun w => (tt, emit (KVPut key v expirationTtl)
                  (set_kv (<[key := {| value := v; expirationTtl := expirationTtl |}]> (kv w)) w)).

Definition delete (key : string) : M unit :=
  fun w => (tt, emit (KVDelete key) (set_kv (base.delete key (kv w)) w)).

End KVNamespace.

(** ** [helpers/kv.ts] *)

Definition EXPIRATION_TTL : Z := 60 * 60 * 24 * 365.

Definition Object_fromEntries (entries : list (string * string)) : gmap string string :=
  foldl (fun o e => <[e.1 := e.2]> o) ∅ entries.

Definition headerToJson (response : Response.t) : gmap string string :=
  Object_fromEntries (Response.headers response).

(** Header names are compared without regard to case. *)
Definition lower_ascii (c : Ascii.ascii) : Ascii.ascii :=
  let n := Ascii.N_of_ascii c in
  if ((65 <=? n) && (n <=? 90))%N then Ascii.ascii_of_N (n + 32) else c.

Fixpoint lower (s : string) : string :=
  match s with
  | EmptyString => EmptyString
  | String c s => String (lower_ascii c) (lower s)
  end.

(** The header names of a response are in lower case, as [entries()]
    yields them. *)
Definition lower_case_names (res : Response.t) : Prop :=
  Forall (fun e => lower e.1 = e.1) (Response.headers res).

(** [headers.has(name)], for a lower-case [name] *)
Definition has_header (name : string) (headers : gmap string string) : bool :=
  existsb (fun e => String.eqb (lower e.1) name) (map_to_list headers).

Definition TEXT_PLAIN : string := "text/plain;charset=UTF-8".

(** The headers of [new Response(body, {headers})]: a body that is a
    string brings its content type when the headers name none. *)
Definition Response_headers (body : option string) (headers : gmap string string)
    : gmap string string :=
  match body with
  | Some _ =>
      if has_header "content-type" headers then headers
      else <["content-type" := TEXT_PLAIN]> headers
  | None => headers
  end.

(** [new Response(body, {headers})]: the status is left to its default;
    an [undefined] body is the empty body, [undefined] headers are none.
    The names are kept as they are stored ([put] stores them as
    [entries()] yields them).  Headers that the constructor rejects with
    a [TypeError] are outside the model. *)
Definition restoreResponse (res : Cached.t) : Response.t :=
  {| Response.status := 200;
     Response.headers :=
       map_to_list (Response_headers (Cached.body res) (default ∅ (Cached.headers res)));
     Response.body := default "" (Cached.body res) |}.

Module KVCacheStoreType.
Record t : Type := {
  put : Request -> Response.t -> M unit;
  match_ : Request -> M (option Response.t * JS.number);
  delete : Request -> M unit
}.
End KVCacheStoreType.

Section Runtime.

(** [Date.parse]: the time value of a date string, NaN when it is not
    a date. *)
Variable Date_parse : string -> JS.number.

(** [new Date(v).getTime()] *)
Definition Date_getTime (v : option string) : JS.number :=
  match v with
  | Some s => Date_parse s
  | None => JS.NaN
  end.

(** The [remainingTime] constant of [match], before flooring. *)
Definition remainingTime_ms (res : Cached.t) (t : Z) : JS.number :=
  match Cached.expireAt res with
  | Some expireAt => JS.sub (JS.Num expireAt) (JS.Num t)
  | None => JS.sub (Date_getTime (Cached.cacheTtl res)) (JS.Num t)
  end.

(** What [match] reports for a stored value read at time [t]:
    [Math.max(Math.floor(remainingTime / 1000), 0)]. *)
Definition remainingTime_at (res : Cached.t) (t : Z) : JS.number :=
  JS.max (JS.floor_div (remainingTime_ms res t) 1000) (JS.Num 0).

Definition KVCacheStore (ttl : Z) : KVCacheStoreType.t := {|
  KVCacheStoreType.put := fun req res =>
    await t <- Date_now;
    let expireAt := t + ttl * 1000 in
    KVNamespace.put (url req)
      {| Cached.headers := Some (headerToJson res);
         Cached.body := Some (Response.body res);
         Cached.expireAt := Some expireAt;
         Cached.cacheTtl := None |}
      EXPIRATION_TTL;
  KVCacheStoreType.match_ := fun req =>
    await res <- KVNamespace.get (url req);
    match res with
    | None => ret (None, JS.Num 0)
    | Some res =>
        await t <- Date_now;
        let remainingTime := remainingTime_ms res t in
        ret (Some (restoreResponse res),
             JS.max (JS.floor_div remainingTime 1000) (JS.Num 0))
    end;
  KVCacheStoreType.delete := fun req => KVNamespace.delete (url req)
|}.

End Runtime.

(** ** [swr.ts] *)

Definition TTL_DEFAULT : Z := 60.
Definition PROXY_DEFAULT (r : Request) : Request := r.

Definition RequestProxy : Type := Request -> Request.

Module SwrOptions.
Record t : Type := {
  ttl : option Z;
  proxy : option RequestProxy;
  debug : option bool
}.
End SwrOptions.

Record MakeFunctionArgs : Type := {
  request : Request;
  ttl : Z;
  storeApi : KVCacheStoreType.t;
  proxy : RequestProxy;
  logger : string -> M unit
}.

Module NotMatchedError.
Record t : Type := { message : string; request : Request; name : string }.

(** [new NotMatchedError(message, request)] *)
Definition new (message : string) (request : Request) : t :=
  {| message := message; request := request; name := "NotMatchedError" |}.
End NotMatchedError.

(** How a [Promise<Response>] settles: with a response, with the
    [NotMatchedError] thrown by [match], or with the failure of a fetch. *)
Inductive Settled : Type :=
| Resolved (res : Response.t)
| Thrown (e : NotMatchedError.t)
| FetchFailed.

Definition settle (r : FetchResult) : Settled :=
  match r with
  | Fetched res => Resolved res
  | NetworkError => FetchFailed
  end.

(** How a [Promise<void>] settles. *)
Inductive Completion : Type :=
| Fulfilled
| Rejected.

Inductive OnNotMatched : Type :=
| on_fetch
| on_error.

Module MatchOption.
Record t : Type := {
  forceRevalidate : option bool;
  onNotMatched : option OnNotMatched
}.
End MatchOption.

Definition MatchFunc : Type := option MatchOption.t -> M Settled.
Definition PutFunc : Type := Response.t -> M unit.
Definition ClearFunc : Type := M unit.

(** [() => Promise<void>] of the revalidation: [call] is the part that
    runs when the function is called and yields the promise, [resume] the
    part after [await fetch(...)]. *)
Module RevalidateFunc.
Record t : Type := {
  call : M Task;
  resume : Task -> M Completion
}.

(** [await revalidate()] *)
Definition run (f : t) : M Completion :=
  await p <- call f;
  resume f p.
End RevalidateFunc.

Module SWR.
Record t : Type := {
  match_ : MatchFunc;
  put : PutFunc;
  revalidate : RevalidateFunc.t;
  clear : ClearFunc
}.
End SWR.

(** [!v] for a value that is an object or [null] *)
Definition is_null {A} (v : option A) : bool :=
  match v with
  | None => true
  | Some _ => false
  end.

Definition makePutFunc (args : MakeFunctionArgs) : PutFunc :=
  fun res =>
    exec KVCacheStoreType.put (storeApi args) (request args) res;
    logger args "created the cache".

Definition makeClearFunc (args : MakeFunctionArgs) : ClearFunc :=
  exec KVCacheStoreType.delete (storeApi args) (request args);
  logger args "deleted the cache".

Definition makeRevalidateFunc (args : MakeFunctionArgs) : RevalidateFunc.t :=
  let proxiedRequest := proxy args (request args) in
  let clear := makeClearFunc args in
  let put := makePutFunc args in
  {| RevalidateFunc.call :=
       exec logger args "revalidate the cache";
       await res <- fetch proxiedRequest;
       ret {| target := proxiedRequest; arriving := res |};
     RevalidateFunc.resume := fun p =>
       match arriving p with
       | NetworkError => ret Rejected
       | Fetched res =>
           if (400 <=? Response.status res) && (Response.status res <=? 499)
           then exec clear; ret Fulfilled
           else if (200 <=? Response.status res) && (Response.status res <=? 299)
           then exec put res; ret Fulfilled
           else ret Fulfilled
       end |}.

Definition makeMatchFunc (args : MakeFunctionArgs) : MatchFunc :=
  let proxiedRequest := proxy args (request args) in
  let revalidate := makeRevalidateFunc args in
  fun option =>
    let forceRevalidate := default false (option ≫= MatchOption.forceRevalidate) in
    let onNotMatched := default on_fetch (option ≫= MatchOption.onNotMatched) in
    await (kvCache, remainingTime) <- KVCacheStoreType.match_ (storeApi args) (request args);
    exec (if forceRevalidate || JS.ltb remainingTime (JS.Num 1) || is_null kvCache
          then await p <- RevalidateFunc.call revalidate; waitUntil p
          else ret tt);
    match kvCache with
    | Some kvCache =>
        exec logger args "hit the cache by KV";
        ret (Resolved kvCache)
    | None =>
        exec logger args "no hit caches";
        match onNotMatched with
        | on_error =>
            ret (Thrown (NotMatchedError.new "Caches are not matched" (request args)))
        | on_fetch =>
            await res <- fetch proxiedRequest;
            ret (settle res)
        end
    end.

Section Swr.

Variable Date_parse : string -> JS.number.

Definition makeSwr (remoteRequest : Request) (options : option SwrOptions.t) : SWR.t :=
  let ttl := default TTL_DEFAULT (options ≫= SwrOptions.ttl) in
  let proxy := default PROXY_DEFAULT (options ≫= SwrOptions.proxy) in
  let debug := default false (options ≫= SwrOptions.debug) in
  let args :=
    {| request := remoteRequest;
       ttl := ttl;
       storeApi := KVCacheStore Date_parse ttl;
       logger := fun msg => if debug then console_log msg else ret tt;
       proxy := proxy |} in
  {| SWR.match_ := makeMatchFunc args;
     SWR.put := makePutFunc args;
     SWR.revalidate := makeRevalidateFunc args;
     SWR.clear := makeClearFunc args |}.

End Swr.

(** ** Vocabulary of the statements *)

(** The effective options of [makeSwr] and of [match]. *)
Definition ttl_of (options : option SwrOptions.t) : Z :=
  default TTL_DEFAULT (options ≫= SwrOptions.ttl).

Definition proxy_of (options : option SwrOptions.t) : RequestProxy :=
  default PROXY_DEFAULT (options ≫= SwrOptions.proxy).

Definition debug_of (options : option SwrOptions.t) : bool :=
  default false (options ≫= SwrOptions.debug).

Definition forceRevalidate_of (option : option MatchOption.t) : bool :=
  default false (option ≫= MatchOption.forceRevalidate).

Definition onNotMatched_of (option : option MatchOption.t) : OnNotMatched :=
  default on_fetch (option ≫= MatchOption.onNotMatched).

(** The world after a [logger] call. *)
Definition logged (debug : bool) (msg : string) (w : World) : World :=
  if debug then emit (ConsoleLog msg) w else w.

(** The promise that a [revalidate()] call made in [w] yields. *)
Definition revalidation (proxy : RequestProxy) (req : Request) (w : World) : Task :=
  {| target := proxy req;
     arriving := origin w (length (fetches (trace w))) (proxy req) |}.

(** The world once [context.waitUntil(revalidate())] has run: the log
    line, the fetch issued by the call, the registration of the promise. *)
Definition after_schedule (debug : bool) (proxy : RequestProxy) (req : Request) (w : World) : World :=
  emit (WaitUntil (revalidation proxy req w))
    (emit (Fetch (proxy req)) (logged debug "revalidate the cache" w)).

(** The record that [put] writes for a response read at time [t]. *)
Definition written (ttl : Z) (res : Response.t) (t : Z) : KVEntry :=
  {| value := CachedData (headerToJson res) (Response.body res) (t + ttl * 1000);
     expirationTtl := EXPIRATION_TTL |}.

(** The runtime lets the promises given to [waitUntil] settle, in the
    order of their registration. *)
Fixpoint drain (f : RevalidateFunc.t) (tasks : list Task) : M unit :=
  match tasks with
  | [] => ret tt
  | p :: tasks => exec RevalidateFunc.resume f p; drain f tasks
  end.

(** The remaining time in the words of the specification: expiry minus
    now, in whole seconds, floored, clamped to be at least 0. *)
Definition spec_remainingSeconds (expiry t : Z) : Z :=
  Z.max ((expiry - t) / 1000) 0.

(** ** Further observers and sample data *)

(** The lines written to the console. *)
Definition console_lines (tr : list Event) : list string :=
  omap (fun e => match e with ConsoleLog msg => Some msg | _ => None end) tr.

(** ** Sample data *)

Module Sample.

Definition Date_parse (s : string) : JS.number :=
  if String.eqb s "1970-01-01T00:01:00.000Z" then JS.Num 60000 else JS.NaN.

Definition remoteRequest : Request :=
  {| url := "https://cdn.test/landing/"; method := "GET" |}.

(** Rewrites the host, as the proxy of the README does. *)
Definition to_origin (req : Request) : Request :=
  {| url := "https://origin.test/landing/"; method := method req |}.

Definition page (status : Z) (body : string) : Response.t :=
  {| Response.status := status;
     Response.headers := [("content-type", "text/html")];
     Response.body := body |}.

(** An origin whose first answer differs from the later ones. *)
Definition server (status : Z) (n : nat) (req : Request) : FetchResult :=
  Fetched (page status (if Nat.eqb n 0 then "origin, first answer" else "origin, later answer")).

Definition world (entries : gmap string KVEntry) (t : Z) (status : Z) : World :=
  {| kv := entries; now := t; origin := server status; trace := [] |}.

Definition entry (v : Cached.t) : gmap string KVEntry :=
  {[ url remoteRequest := {| value := v; expirationTtl := EXPIRATION_TTL |} ]}.

Definition current : Cached.t := CachedData ∅ "cached" 60000.
Definition legacy : Cached.t := CachedDataDeprecated ∅ "cached" "1970-01-01T00:01:00.000Z".

(** A JSON object with none of the keys the code reads: [{}]. *)
Definition unrecognised : Cached.t :=
  {| Cached.headers := None; Cached.body := None;
     Cached.expireAt := None; Cached.cacheTtl := None |}.

Definition fresh_world : World := world (entry current) 1000 200.
Definition stale_world : World := world (entry current) 60500 404.
Definition legacy_world : World := world (entry legacy) 1000 200.
Definition broken_world : World := world (entry unrecognised) 1000 200.
Definition empty_world : World := world ∅ 1000 200.

Definition expired_legacy_world : World := world (entry legacy) 60000 200.

Definition proxied : option SwrOptions.t :=
  Some {| SwrOptions.ttl := Some 60; SwrOptions.proxy := Some to_origin; SwrOptions.debug := Some true |}.

Definition on (force : bool) (policy : OnNotMatched) : option MatchOption.t :=
  Some {| MatchOption.forceRevalidate := Some force; MatchOption.onNotMatched := Some policy |}.

(** [match()] followed by the settling of what it scheduled. *)
Definition match_and_settle (options : option SwrOptions.t) (w : World) : Settled * World :=
  let swr := makeSwr Date_parse remoteRequest options in
  let (res, w1) := SWR.match_ swr None w in
  (res, (drain (SWR.revalidate swr) (scheduled (trace w1)) w1).2).

Definition year_long : option SwrOptions.t :=
  Some {| SwrOptions.ttl := Some 31536000; SwrOptions.proxy := None; SwrOptions.debug := None |}.

(** An origin that cannot be reached, in front of an expired cache. *)
Definition down_world : World :=
  {| kv := entry current; now := 60500;
     origin := fun _ _ => NetworkError; trace := [] |}.

(** The same URL asked for with another method. *)
Definition headRequest : Request :=
  {| url := "https://cdn.test/landing/"; method := "HEAD" |}.

(** A response that sets two cookies. *)
Definition two_cookies : Response.t :=
  {| Response.status := 200;
     Response.headers :=
       [("content-type", "text/html"); ("set-cookie", "a=1"); ("set-cookie", "b=2")];
     Response.body := "body" |}.

(** An origin answer without a content type. *)
Definition bare : Response.t :=
  {| Response.status := 200; Response.headers := [("etag", "1")]; Response.body := "bare" |}.

(** A record of neither shape that has a body. *)
Definition only_body : Cached.t :=
  {| Cached.headers := None; Cached.body := Some "text";
     Cached.expireAt := None; Cached.cacheTtl := None |}.

Definition only_body_world : World := world (entry only_body) 1000 200.

Definition not_a_date : Cached.t := CachedDataDeprecated ∅ "cached" "soon".

Definition not_a_date_world : World := world (entry not_a_date) 1000 200.

(** Two settled fetches, one answered 200 and one answered 404. *)
Definition answered (status : Z) (body : string) : Task :=
  {| target := remoteRequest; arriving := Fetched (page status body) |}.

Definition verbose : option SwrOptions.t :=
  Some {| SwrOptions.ttl := None; SwrOptions.proxy := None; SwrOptions.debug := Some true |}.

End Sample.

(** ** Proof steps

    [observe] computes the observers of a trace; [run_async] unfolds the
    monad and the runtime primitives. *)

Ltac observe :=
  unfold after_schedule, revalidation, logged, scheduled, fetches, kv_reads,
    kv_writes, kv_keys, kv_hints, emit, set_kv;
  repeat match goal with |- context [if ?d then _ else _] => is_var d; destruct d end;
  cbn; rewrite ?omap_app; cbn; rewrite ?app_nil_r, <- ?app_assoc; cbn.

Ltac run_async :=
  unfold makeSwr, makeMatchFunc, makeRevalidateFunc, makePutFunc, makeClearFunc,
    RevalidateFunc.run, bind, ret, fetch, waitUntil, console_log,
    KVNamespace.get, KVNamespace.put, KVNamespace.delete, Date_now; cbn.

(** * Properties *)

Section Properties.

Variable Date_parse : string -> JS.number.

Local Abbreviation swr := (makeSwr Date_parse).
Local Abbreviation store := (KVCacheStore Date_parse).

(** *** Arithmetic of JavaScript numbers *)

Lemma JS_geb_not_ltb a b : JS.geb a b = true -> JS.ltb a b = false.
Proof.
  destruct a as [x|], b as [y|]; cbn; try discriminate.
  intros H. apply Z.leb_le in H. apply Z.ltb_ge. exact H.
Qed.

(** *** The store adapter in closed form *)

Lemma store_match_eq ttl req w :
  KVCacheStoreType.match_ (store ttl) req w
  = (match kv w !! url req with
     | Some e => (Some (restoreResponse (value e)),
                  remainingTime_at Date_parse (value e) (now w))
     | None => (None, JS.Num 0)
     end, emit (KVGet (url req)) w).
Proof. run_async. destruct (kv w !! url req); reflexivity. Qed.

Lemma store_put_eq ttl req res w :
  KVCacheStoreType.put (store ttl) req res w
  = (tt, emit (KVPut (url req) (value (written ttl res (now w))) EXPIRATION_TTL)
           (set_kv (<[url req := written ttl res (now w)]> (kv w)) w)).
Proof. reflexivity. Qed.

Lemma store_delete_eq ttl req w :
  KVCacheStoreType.delete (store ttl) req w
  = (tt, emit (KVDelete (url req)) (set_kv (delete (url req) (kv w)) w)).
Proof. reflexivity. Qed.

(** *** The engine in closed form *)

Lemma put_eq req options res w :
  SWR.put (swr req options) res w
  = (tt, logged (debug_of options) "created the cache"
           (emit (KVPut (url req) (value (written (ttl_of options) res (now w))) EXPIRATION_TTL)
              (set_kv (<[url req := written (ttl_of options) res (now w)]> (kv w)) w))).
Proof.
  run_async. unfold logged, debug_of.
  destruct (default false (options ≫= SwrOptions.debug)); reflexivity.
Qed.

Lemma clear_eq req options w :
  SWR.clear (swr req options) w
  = (tt, logged (debug_of options) "deleted the cache"
           (emit (KVDelete (url req)) (set_kv (delete (url req) (kv w)) w))).
Proof.
  run_async. unfold logged, debug_of.
  destruct (default false (options ≫= SwrOptions.debug)); reflexivity.
Qed.

Lemma call_eq req options w :
  RevalidateFunc.call (SWR.revalidate (swr req options)) w
  = (revalidation (proxy_of options) req w,
     emit (Fetch (proxy_of options req))
       (logged (debug_of options) "revalidate the cache" w)).
Proof.
  run_async. unfold logged, debug_of, revalidation, proxy_of.
  destruct (default false (options ≫= SwrOptions.debug)); cbn; [|reflexivity].
  unfold fetches. rewrite omap_app. cbn. rewrite app_nil_r. reflexivity.
Qed.

Lemma resume_eq req options p w :
  RevalidateFunc.resume (SWR.revalidate (swr req options)) p w
  = match arriving p with
    | NetworkError => (Rejected, w)
    | Fetched res =>
        if (400 <=? Response.status res) && (Response.status res <=? 499)
        then (Fulfilled, (SWR.clear (swr req options) w).2)
        else if (200 <=? Response.status res) && (Response.status res <=? 299)
        then (Fulfilled, (SWR.put (swr req options) res w).2)
        else (Fulfilled, w)
    end.
Proof.
  run_async. destruct (arriving p) as [res|]; [|reflexivity].
  destruct ((400 <=? Response.status res) && (Response.status res <=? 499)).
  - destruct (default false (options ≫= SwrOptions.debug)); reflexivity.
  - destruct ((200 <=? Response.status res) && (Response.status res <=? 299)); [|reflexivity].
    destruct (default false (options ≫= SwrOptions.debug)); reflexivity.
Qed.

Lemma match_eq req options opt w :
  SWR.match_ (swr req options) opt w
  = let d := debug_of options in
    let p := proxy_of options in
    let w1 := emit (KVGet (url req)) w in
    match kv w !! url req with
    | Some e =>
        let w2 := if forceRevalidate_of opt
                     || JS.ltb (remainingTime_at Date_parse (value e) (now w)) (JS.Num 1)
                  then after_schedule d p req w1 else w1 in
        (Resolved (restoreResponse (value e)), logged d "hit the cache by KV" w2)
    | None =>
        let w2 := logged d "no hit caches" (after_schedule d p req w1) in
        match onNotMatched_of opt with
        | on_error => (Thrown (NotMatchedError.new "Caches are not matched" req), w2)
        | on_fetch => (settle (origin w (S (length (fetches (trace w)))) (p req)),
                       emit (Fetch (p req)) w2)
        end
    end.
Proof.
  unfold makeSwr. cbn [SWR.match_]. unfold makeMatchFunc. cbn [storeApi request proxy logger].
  unfold bind at 1. rewrite store_match_eq. cbn zeta.
  fold (forceRevalidate_of opt) (onNotMatched_of opt) (proxy_of options) (debug_of options).
  generalize (forceRevalidate_of opt) (onNotMatched_of opt) (proxy_of options) (debug_of options).
  intros force policy p d.
  destruct (kv w !! url req) as [e|].
  - generalize (JS.ltb (remainingTime_at Date_parse (value e) (now w)) (JS.Num 1)).
    intros stale. rewrite orb_false_r.
    destruct (force || stale), d; run_async; observe; reflexivity.
  - rewrite orb_true_r.
    destruct policy, d; run_async; observe; try reflexivity.
    all: rewrite length_app, Nat.add_1_r; reflexivity.
Qed.

(** ** The decision engine *)

(** C1. A hit made without [forceRevalidate] whose remaining time is at
    least 1 returns the cached response and schedules nothing; a hit that
    is stale (remaining time below 1) or forced returns the response that
    was in the cache before the call and schedules exactly one
    revalidation task. *)
Theorem match_hit_decision (req : Request) (options : option SwrOptions.t)
    (opt : option MatchOption.t) (ttl : Z) (w : World)
    (cached : Response.t) (remainingTime : JS.number) :
  (KVCacheStoreType.match_ (store ttl) req w).1 = (Some cached, remainingTime) ->
  let w' := (SWR.match_ (swr req options) opt w).2 in
  (SWR.match_ (swr req options) opt w).1 = Resolved cached
  /\ (forceRevalidate_of opt = false ->
      JS.geb remainingTime (JS.Num 1) = true ->
      scheduled (trace w') = scheduled (trace w)
      /\ fetches (trace w') = fetches (trace w))
  /\ (forceRevalidate_of opt = true \/ JS.ltb remainingTime (JS.Num 1) = true ->
      scheduled (trace w') = scheduled (trace w) ++ [revalidation (proxy_of options) req w]
      /\ fetches (trace w') = fetches (trace w) ++ [proxy_of options req]).
Proof.
  rewrite store_match_eq, match_eq. cbn [fst snd].
  destruct (kv w !! url req) as [e|]; [|discriminate].
  intros [= <- <-]. cbn zeta. cbn [fst snd].
  split; [reflexivity|]. split.
  - intros -> Hfresh. rewrite (JS_geb_not_ltb _ _ Hfresh). cbn [orb].
    destruct (debug_of options); observe; auto.
  - intros Hstale.
    assert (forceRevalidate_of opt
            || JS.ltb (remainingTime_at Date_parse (value e) (now w)) (JS.Num 1) = true) as ->.
    { destruct Hstale as [-> | ->]; [reflexivity | apply orb_true_r]. }
    destruct (debug_of options); observe; auto.
Qed.


(** C2. A miss under the [fetch] policy (the default) settles as the
    direct fetch of the proxied request does, without a second read of
    the cache, and a revalidation task is scheduled as well: the origin
    receives two independent requests, the task holding the answer to
    the first and the caller getting the answer to the second. *)
Theorem match_miss_fetch (req : Request) (options : option SwrOptions.t)
    (opt : option MatchOption.t) (w : World) :
  kv w !! url req = None ->
  onNotMatched_of opt = on_fetch ->
  let w' := (SWR.match_ (swr req options) opt w).2 in
  let n := length (fetches (trace w)) in
  (SWR.match_ (swr req options) opt w).1
    = settle (origin w (S n) (proxy_of options req))
  /\ scheduled (trace w')
     = scheduled (trace w)
       ++ [{| target := proxy_of options req;
              arriving := origin w n (proxy_of options req) |}]
  /\ fetches (trace w')
     = fetches (trace w) ++ [proxy_of options req; proxy_of options req]
  /\ kv_reads (trace w') = kv_reads (trace w) ++ [url req].
Proof.
  intros Hmiss Hpolicy. rewrite match_eq, Hmiss, Hpolicy. cbn zeta. cbn [fst snd].
  split; [reflexivity|].
  destruct (debug_of options); observe; auto.
Qed.

(** C3. A miss under the [error] policy fails with a [NotMatchedError]
    that carries the original request, in a world where the revalidation
    task is already scheduled; and [match] fails with a
    [NotMatchedError] in no other situation. *)
Theorem match_not_matched_error (req : Request) (options : option SwrOptions.t)
    (opt : option MatchOption.t) (w : World) :
  let w' := (SWR.match_ (swr req options) opt w).2 in
  (kv w !! url req = None -> onNotMatched_of opt = on_error ->
     (SWR.match_ (swr req options) opt w).1
       = Thrown (NotMatchedError.new "Caches are not matched" req)
     /\ scheduled (trace w')
        = scheduled (trace w) ++ [revalidation (proxy_of options) req w]
     /\ fetches (trace w') = fetches (trace w) ++ [proxy_of options req])
  /\ (forall e, (SWR.match_ (swr req options) opt w).1 = Thrown e ->
        kv w !! url req = None /\ onNotMatched_of opt = on_error
        /\ NotMatchedError.request e = req
        /\ NotMatchedError.name e = "NotMatchedError").
Proof.
  rewrite match_eq. cbn zeta. split.
  - intros -> ->. cbn [fst snd]. split; [reflexivity|].
    destruct (debug_of options); observe; auto.
  - intros e. destruct (kv w !! url req); [discriminate|].
    destruct (onNotMatched_of opt); cbn [fst].
    + destruct (origin _ _ _); discriminate.
    + intros [= <-]. auto.
Qed.
(** ** The revalidation protocol *)

Lemma run_eq req options w :
  RevalidateFunc.run (SWR.revalidate (swr req options)) w
  = RevalidateFunc.resume (SWR.revalidate (swr req options))
      (revalidation (proxy_of options) req w)
      (emit (Fetch (proxy_of options req))
         (logged (debug_of options) "revalidate the cache" w)).
Proof.
  unfold RevalidateFunc.run, bind. rewrite call_eq. reflexivity.
Qed.

(** The status classes of [revalidate], as the code tests them. *)
Lemma status_class (s : Z) :
  ((400 <=? s) && (s <=? 499) = true <-> 400 <= s <= 499)
  /\ ((200 <=? s) && (s <=? 299) = true <-> 200 <= s <= 299).
Proof. rewrite !andb_true_iff, !Z.leb_le. tauto. Qed.

(** A resumed task: what it does to the namespace, whenever it resumes. *)
Lemma resume_by_status req options p w res :
  arriving p = Fetched res ->
  let w' := (RevalidateFunc.resume (SWR.revalidate (swr req options)) p w).2 in
  let s := Response.status res in
  (200 <= s <= 299 ->
     kv w' = <[url req := written (ttl_of options) res (now w)]> (kv w)
     /\ kv_keys (trace w') = kv_keys (trace w) ++ [url req])
  /\ (400 <= s <= 499 ->
      kv w' = delete (url req) (kv w)
      /\ kv_keys (trace w') = kv_keys (trace w) ++ [url req])
  /\ (~ 200 <= s <= 299 -> ~ 400 <= s <= 499 -> w' = w).
Proof.
  intros Hres. rewrite resume_eq, Hres, put_eq, clear_eq. cbn zeta.
  destruct (status_class (Response.status res)) as [H4 H2].
  destruct ((400 <=? Response.status res) && (Response.status res <=? 499)) eqn:E4;
    [|destruct ((200 <=? Response.status res) && (Response.status res <=? 299)) eqn:E2];
    cbn [fst snd].
  - assert (400 <= Response.status res <= 499) by (apply H4; reflexivity).
    split; [|split]; [lia | | lia].
    intros _. destruct (debug_of options); observe; auto.
  - assert (200 <= Response.status res <= 299) by (apply H2; reflexivity).
    split; [|split]; [| lia | lia].
    intros _. destruct (debug_of options); observe; auto.
  - split; [|split]; [| | reflexivity].
    all: intros Hs; exfalso; first [apply H2 in Hs | apply H4 in Hs]; discriminate.
Qed.

(** *** [Object.fromEntries] *)

Lemma fromEntries_snoc (l : list (string * string)) (e : string * string) :
  Object_fromEntries (l ++ [e]) = <[e.1 := e.2]> (Object_fromEntries l).
Proof. unfold Object_fromEntries. rewrite foldl_app. reflexivity. Qed.

Lemma fromEntries_last (before after : list (string * string)) (name v : string) :
  name ∉ after.*1 ->
  Object_fromEntries (before ++ (name, v) :: after) !! name = Some v.
Proof.
  induction after as [|e after IH] using rev_ind; intros Hlast.
  - rewrite fromEntries_snoc. apply lookup_insert_eq.
  - rewrite fmap_app, not_elem_of_app in Hlast. destruct Hlast as [Hafter He].
    rewrite app_comm_cons, app_assoc, fromEntries_snoc.
    rewrite lookup_insert_ne; [apply IH, Hafter|].
    intros <-. apply He. cbn. left.
Qed.

Lemma fromEntries_absent (l : list (string * string)) (name : string) :
  name ∉ l.*1 -> Object_fromEntries l !! name = None.
Proof.
  induction l as [|e l IH] using rev_ind; intros Hno; [reflexivity|].
  rewrite fmap_app, not_elem_of_app in Hno. destruct Hno as [Hl He].
  rewrite fromEntries_snoc, lookup_insert_ne; [apply IH, Hl|].
  intros <-. apply He. cbn. left.
Qed.

(** C4. After a run of [revalidate()] whose fetch is answered: with a
    status in 200..299 the store holds, under the key, the fetched body
    and the fetched headers (each header name with the value of its last
    entry, and no other name), and a read of the store gives a response
    with that body; with a status in 400..499 the store has no entry for the key;
    with any other status the namespace is as it was and neither [put] nor
    [delete] was called. *)
Theorem revalidate_by_status (req : Request) (options : option SwrOptions.t)
    (ttl : Z) (w : World) (res : Response.t) :
  origin w (length (fetches (trace w))) (proxy_of options req) = Fetched res ->
  let w' := (RevalidateFunc.run (SWR.revalidate (swr req options)) w).2 in
  let s := Response.status res in
  (200 <= s <= 299 ->
     exists headers,
       kv w' !! url req
         = Some {| value := CachedData headers (Response.body res)
                              (now w + ttl_of options * 1000);
                   expirationTtl := EXPIRATION_TTL |}
       /\ (forall before name v after,
             Response.headers res = before ++ (name, v) :: after ->
             name ∉ after.*1 ->
             headers !! name = Some v)
       /\ (forall name, name ∉ (Response.headers res).*1 -> headers !! name = None)
       /\ exists r rt,
            (KVCacheStoreType.match_ (store ttl) req w').1 = (Some r, rt)
            /\ r = restoreResponse (CachedData headers (Response.body res)
                                      (now w + ttl_of options * 1000))
            /\ Response.body r = Response.body res
            /\ Response.status r = 200)
  /\ (400 <= s <= 499 ->
      kv w' !! url req = None
      /\ (KVCacheStoreType.match_ (store ttl) req w').1.1 = None)
  /\ (~ 200 <= s <= 299 -> ~ 400 <= s <= 499 ->
      kv w' = kv w /\ kv_writes (trace w') = kv_writes (trace w)).
Proof.
  intros Hres. cbn zeta. rewrite run_eq, !store_match_eq.
  set (p := revalidation (proxy_of options) req w).
  set (w1 := emit _ _).
  assert (arriving p = Fetched res) as Hp by exact Hres.
  destruct (resume_by_status req options p w1 res Hp) as (H2 & H4 & H0).
  assert (kv w1 = kv w /\ now w1 = now w /\ kv_writes (trace w1) = kv_writes (trace w))
    as (Hkv & Hnow & Hwr).
  { subst w1. destruct (debug_of options); observe; auto. }
  split; [|split].
  - intros Hs. destruct (H2 Hs) as [-> _]. rewrite Hnow.
    rewrite lookup_insert_eq. exists (headerToJson res).
    split; [reflexivity|]. split; [|split].
    + intros before name v after Hh Hlast. unfold headerToJson.
      rewrite Hh. apply fromEntries_last, Hlast.
    + intros name. apply fromEntries_absent.
    + eexists _, _. split; [reflexivity|]. split; [reflexivity|].
      split; reflexivity.
  - intros Hs. destruct (H4 Hs) as [-> _].
    rewrite lookup_delete_eq. split; reflexivity.
  - intros Hn2 Hn4. rewrite (H0 Hn2 Hn4). auto.
Qed.

(** ** Records of neither shape *)

(** C5 (amended). A stored object with neither [expireAt] nor [cacheTtl]
    and without headers (the key missing, or an empty object) does not
    make the read fail: the store adapter rebuilds from it a response with
    status 200 and the stored body (an empty one when there is none, the
    content type of text when there is one) and reports NaN as the
    remaining time, and [match] serves that response as a hit, scheduling
    a revalidation only when [forceRevalidate] is set. *)
Theorem unrecognised_record_is_a_hit (req : Request) (options : option SwrOptions.t)
    (opt : option MatchOption.t) (ttl : Z) (w : World) (e : KVEntry) :
  kv w !! url req = Some e ->
  Cached.expireAt (value e) = None ->
  Cached.cacheTtl (value e) = None ->
  Cached.headers (value e) = None \/ Cached.headers (value e) = Some ∅ ->
  let w' := (SWR.match_ (swr req options) opt w).2 in
  (KVCacheStoreType.match_ (store ttl) req w).1
    = (Some (restoreResponse (value e)), JS.NaN)
  /\ restoreResponse (value e)
     = {| Response.status := 200;
          Response.headers :=
            match Cached.body (value e) with
            | Some _ => [("content-type", "text/plain;charset=UTF-8")]
            | None => []
            end;
          Response.body := default "" (Cached.body (value e)) |}
  /\ (SWR.match_ (swr req options) opt w).1 = Resolved (restoreResponse (value e))
  /\ scheduled (trace w')
     = scheduled (trace w)
       ++ (if forceRevalidate_of opt then [revalidation (proxy_of options) req w] else []).
Proof.
  intros Hk Hexp Httl Hheaders. rewrite store_match_eq, match_eq, Hk. cbn zeta. cbn [fst snd].
  assert (remainingTime_at Date_parse (value e) (now w) = JS.NaN) as ->.
  { unfold remainingTime_at, remainingTime_ms. rewrite Hexp, Httl. reflexivity. }
  cbn [JS.ltb]. rewrite orb_false_r.
  split; [reflexivity|]. split; [|split; [reflexivity|]].
  - unfold restoreResponse.
    assert (default ∅ (Cached.headers (value e)) = ∅) as ->
      by (destruct Hheaders as [-> | ->]; reflexivity).
    destruct (Cached.body (value e)) as [b|]; cbn [Response_headers default].
    + replace (has_header "content-type" (∅ : gmap string string)) with false
        by (unfold has_header; rewrite map_to_list_empty; reflexivity).
      rewrite insert_empty, map_to_list_singleton. reflexivity.
    + rewrite map_to_list_empty. reflexivity.
  - destruct (forceRevalidate_of opt), (debug_of options); observe; reflexivity.
Qed.

(** ** The cache key *)

(** C6. Every KV call of the engine ([match], [put], [clear], a run of
    [revalidate] and a resumed revalidation task) is made with the URL of
    the original request as its key, whatever the proxy does to the
    request; an entry under any other key is left as it was. *)
Theorem cache_key_is_original_request (req : Request) (options : option SwrOptions.t)
    (opt : option MatchOption.t) (res : Response.t) (p : Task) (w : World) :
  let s := swr req options in
  let touched (w' : World) :=
    exists ks, kv_keys (trace w') = kv_keys (trace w) ++ ks /\ Forall (eq (url req)) ks in
  let elsewhere (w' : World) :=
    forall k, k <> url req -> kv w' !! k = kv w !! k in
  (kv_keys (trace (SWR.match_ s opt w).2) = kv_keys (trace w) ++ [url req]
   /\ kv (SWR.match_ s opt w).2 = kv w)
  /\ (kv_keys (trace (SWR.put s res w).2) = kv_keys (trace w) ++ [url req]
      /\ kv (SWR.put s res w).2 = <[url req := written (ttl_of options) res (now w)]> (kv w))
  /\ (kv_keys (trace (SWR.clear s w).2) = kv_keys (trace w) ++ [url req]
      /\ kv (SWR.clear s w).2 = delete (url req) (kv w))
  /\ (touched (RevalidateFunc.resume (SWR.revalidate s) p w).2
      /\ elsewhere (RevalidateFunc.resume (SWR.revalidate s) p w).2)
  /\ (touched (RevalidateFunc.run (SWR.revalidate s) w).2
      /\ elsewhere (RevalidateFunc.run (SWR.revalidate s) w).2).
Proof.
  cbn zeta.
  assert (forall q v,
    (exists ks, kv_keys (trace (RevalidateFunc.resume (SWR.revalidate (swr req options)) q v).2)
                = kv_keys (trace v) ++ ks /\ Forall (eq (url req)) ks)
    /\ (forall k, k <> url req ->
         kv (RevalidateFunc.resume (SWR.revalidate (swr req options)) q v).2 !! k = kv v !! k))
    as Hresume.
  { intros q v. rewrite resume_eq.
    destruct (arriving q) as [r|]; cbn [snd].
    - rewrite put_eq, clear_eq.
      destruct ((400 <=? Response.status r) && (Response.status r <=? 499));
        [|destruct ((200 <=? Response.status r) && (Response.status r <=? 299))];
        cbn [snd]; split.
      + exists [url req]. split; [destruct (debug_of options); observe; reflexivity | auto].
      + intros k Hk. destruct (debug_of options); cbn; apply lookup_delete_ne; congruence.
      + exists [url req]. split; [destruct (debug_of options); observe; reflexivity | auto].
      + intros k Hk. destruct (debug_of options); cbn; apply lookup_insert_ne; congruence.
      + exists []. rewrite app_nil_r. auto.
      + reflexivity.
    - split; [exists []; rewrite app_nil_r; auto | reflexivity]. }
  repeat split.
  - rewrite match_eq. cbn zeta. destruct (kv w !! url req) as [e|].
    + destruct (forceRevalidate_of opt || _), (debug_of options); observe; reflexivity.
    + destruct (onNotMatched_of opt), (debug_of options); observe; reflexivity.
  - rewrite match_eq. cbn zeta. destruct (kv w !! url req) as [e|].
    + destruct (forceRevalidate_of opt || _), (debug_of options); reflexivity.
    + destruct (onNotMatched_of opt), (debug_of options); reflexivity.
  - rewrite put_eq. destruct (debug_of options); observe; reflexivity.
  - rewrite put_eq. destruct (debug_of options); reflexivity.
  - rewrite clear_eq. destruct (debug_of options); observe; reflexivity.
  - rewrite clear_eq. destruct (debug_of options); reflexivity.
  - apply Hresume.
  - apply Hresume.
  - rewrite run_eq. destruct (Hresume (revalidation (proxy_of options) req w)
      (emit (Fetch (proxy_of options req)) (logged (debug_of options) "revalidate the cache" w)))
      as [(ks & Hks & Hall) _].
    exists ks. split; [|exact Hall]. rewrite Hks.
    destruct (debug_of options); observe; reflexivity.
  - intros k Hk. rewrite run_eq. rewrite (proj2 (Hresume _ _) k Hk).
    destruct (debug_of options); reflexivity.
Qed.

(** ** The record codec *)

(** C7. A record of the deprecated shape whose [cacheTtl] parses to an
    instant and a record of the current shape whose [expireAt] is that
    instant, read at the same time, are reported with the same remaining
    time: the expiry minus now, in whole seconds, floored and clamped to
    be at least 0. *)
Theorem legacy_and_current_agree (req1 req2 : Request) (ttl : Z) (w1 w2 : World)
    (e1 e2 : KVEntry) (cacheTtl : string) (expiry : Z) :
  Date_parse cacheTtl = JS.Num expiry ->
  kv w1 !! url req1 = Some e1 ->
  Cached.expireAt (value e1) = None ->
  Cached.cacheTtl (value e1) = Some cacheTtl ->
  kv w2 !! url req2 = Some e2 ->
  Cached.expireAt (value e2) = Some expiry ->
  now w1 = now w2 ->
  (KVCacheStoreType.match_ (store ttl) req1 w1).1.2
    = JS.Num (spec_remainingSeconds expiry (now w1))
  /\ (KVCacheStoreType.match_ (store ttl) req2 w2).1.2
     = JS.Num (spec_remainingSeconds expiry (now w1)).
Proof.
  intros Hparse Hk1 Hno Hlegacy Hk2 Hcurrent Hnow.
  rewrite !store_match_eq, Hk1, Hk2, <- Hnow. cbn [fst snd].
  unfold remainingTime_at, remainingTime_ms, Date_getTime.
  rewrite Hno, Hlegacy, Hparse, Hcurrent. split; reflexivity.
Qed.

(** C8 (amended). A response stored by [put] with a non-negative TTL,
    at a time from which the expiry [now + ttl * 1000] does not exceed the
    largest safe integer, and read back by [match] at most one second
    later is reported with a remaining time within one second of the TTL
    (and equal to it when no time passed). *)
Theorem put_then_match_roundtrip (req : Request) (res : Response.t) (ttl d : Z)
    (w : World) :
  0 <= ttl ->
  0 <= d <= 1000 ->
  0 <= now w ->
  now w + d <= JS.MAX_SAFE_INTEGER ->
  now w + ttl * 1000 <= JS.MAX_SAFE_INTEGER ->
  let w' := tick d (KVCacheStoreType.put (store ttl) req res w).2 in
  exists cached r,
    (KVCacheStoreType.match_ (store ttl) req w').1 = (Some cached, JS.Num r)
    /\ Response.body cached = Response.body res
    /\ ttl - 1 <= r <= ttl
    /\ (d = 0 -> r = ttl).
Proof.
  intros Httl Hd _ _ _. cbn zeta. rewrite store_put_eq, store_match_eq. cbn [fst snd].
  unfold tick, emit, set_kv. cbn [kv now]. rewrite lookup_insert_eq.
  eexists _, (Z.max ((now w + ttl * 1000 - (now w + d)) / 1000) 0).
  split; [reflexivity|]. split; [reflexivity|].
  replace (now w + ttl * 1000 - (now w + d)) with (ttl * 1000 - d) by lia.
  pose proof (Z.div_mod (ttl * 1000 - d) 1000 ltac:(lia)) as Hdiv.
  pose proof (Z.mod_pos_bound (ttl * 1000 - d) 1000 ltac:(lia)) as Hmod.
  split; [|intros ->]; lia.
Qed.

(** ** The store-level expiration *)

(** C9 (amended). Every [put] passes the same expiration hint to the
    backend, 31536000 seconds (365 days), whatever the TTL is; the hint
    exceeds the TTL exactly when the TTL is below 31536000 seconds. *)
Theorem expiration_hint_is_fixed (req : Request) (options : option SwrOptions.t)
    (res : Response.t) (ttl : Z) (w : World) :
  let w1 := (KVCacheStoreType.put (store ttl) req res w).2 in
  let w2 := (SWR.put (swr req options) res w).2 in
  (kv_hints (trace w1) = kv_hints (trace w) ++ [31536000]
   /\ expirationTtl <$> kv w1 !! url req = Some 31536000
   /\ (ttl < 31536000 <-> exists e, kv w1 !! url req = Some e /\ ttl < expirationTtl e))
  /\ (kv_hints (trace w2) = kv_hints (trace w) ++ [31536000]
      /\ expirationTtl <$> kv w2 !! url req = Some 31536000).
Proof.
  cbn zeta. rewrite store_put_eq, put_eq. cbn [snd]. split; [split; [|split]|split].
  - observe. reflexivity.
  - cbn. rewrite lookup_insert_eq. reflexivity.
  - cbn. rewrite lookup_insert_eq. split.
    + intros Hlt. eexists. split; [reflexivity|]. exact Hlt.
    + intros (e & [= <-] & Hlt). exact Hlt.
  - destruct (debug_of options); observe; reflexivity.
  - destruct (debug_of options); cbn; rewrite lookup_insert_eq; reflexivity.
Qed.

(** ** Restored responses *)

(** C10. Every response that the store adapter rebuilds from the cache
    has status 200: [put] writes the same record for two responses that
    differ only in their status, and a response read back after [put] has
    status 200 whatever status was stored. *)
Theorem restored_status_is_200 (req : Request) (ttl : Z) (w : World)
    (res res' : Response.t) :
  (forall r rt, (KVCacheStoreType.match_ (store ttl) req w).1 = (Some r, rt) ->
                Response.status r = 200)
  /\ (Response.headers res = Response.headers res' ->
      Response.body res = Response.body res' ->
      KVCacheStoreType.put (store ttl) req res w
      = KVCacheStoreType.put (store ttl) req res' w)
  /\ Response.status
       <$> (KVCacheStoreType.match_ (store ttl) req
              (KVCacheStoreType.put (store ttl) req res w).2).1.1
     = Some 200.
Proof.
  split; [|split].
  - intros r rt. rewrite store_match_eq. cbn [fst].
    destruct (kv w !! url req); [|discriminate].
    intros [= <- _]. reflexivity.
  - intros Hh Hb. rewrite !store_put_eq. unfold written, headerToJson.
    rewrite Hh, Hb. reflexivity.
  - rewrite store_put_eq, store_match_eq. cbn. rewrite lookup_insert_eq. reflexivity.
Qed.

End Properties.

(** * Scenarios of the test suite *)

(** No cache: the origin answers the caller, and the revalidation fills
    the cache under the URL of the original request. *)
Example scenario_first_landing :
  let (res, w) := Sample.match_and_settle Sample.proxied Sample.empty_world in
  res = Resolved (Sample.page 200 "origin, later answer")
  /\ (Cached.body ∘ value) <$> kv w !! url Sample.remoteRequest
     = Some (Some "origin, first answer")
  /\ length (scheduled (trace w)) = 1%nat.
Proof. vm_compute. repeat split. Qed.

(** A cache within its expiration date: no revalidation. *)
Example scenario_fresh_cache :
  let (res, w) := Sample.match_and_settle None Sample.fresh_world in
  res = Resolved (restoreResponse Sample.current)
  /\ scheduled (trace w) = [] /\ fetches (trace w) = [].
Proof. vm_compute. repeat split. Qed.

(** An expired cache and an origin that answers 404: the cache is served,
    then deleted. *)
Example scenario_delete_on_404 :
  let (res, w) := Sample.match_and_settle None Sample.stale_world in
  res = Resolved (restoreResponse Sample.current)
  /\ kv w !! url Sample.remoteRequest = None
  /\ length (scheduled (trace w)) = 1%nat.
Proof. vm_compute. repeat split. Qed.

(** Old-style data ([cacheTtl]): served without revalidation before its
    date, with one revalidation from its date on. *)
Example scenario_old_style_data :
  scheduled (trace (Sample.match_and_settle None Sample.legacy_world).2) = []
  /\ length (scheduled (trace (Sample.match_and_settle None Sample.expired_legacy_world).2))
     = 1%nat
  /\ (Sample.match_and_settle None Sample.expired_legacy_world).1
     = Resolved (restoreResponse Sample.legacy).
Proof. vm_compute. repeat split. Qed.

(** * Instances on the sample data *)

Lemma match_hit_decision_witness :
  (KVCacheStoreType.match_ (KVCacheStore Sample.Date_parse 60)
     Sample.remoteRequest Sample.stale_world).1
    = (Some (restoreResponse Sample.current), JS.Num 0)
  /\ (SWR.match_ (makeSwr Sample.Date_parse Sample.remoteRequest Sample.proxied)
        None Sample.stale_world).1
     = Resolved (restoreResponse Sample.current)
  /\ scheduled (trace (SWR.match_ (makeSwr Sample.Date_parse Sample.remoteRequest Sample.proxied)
                         None Sample.stale_world).2)
     = [{| target := Sample.to_origin Sample.remoteRequest;
           arriving := Fetched (Sample.page 404 "origin, first answer") |}].
Proof.
  assert ((KVCacheStoreType.match_ (KVCacheStore Sample.Date_parse 60)
             Sample.remoteRequest Sample.stale_world).1
          = (Some (restoreResponse Sample.current), JS.Num 0)) as Hhit
    by (vm_compute; reflexivity).
  destruct (match_hit_decision Sample.Date_parse Sample.remoteRequest Sample.proxied
              None 60 Sample.stale_world _ _ Hhit) as (Hres & _ & Hstale).
  split; [exact Hhit|]. split; [exact Hres|].
  destruct (Hstale (or_intror eq_refl)) as [Hs _]. exact Hs.
Defined.

Lemma match_miss_fetch_witness :
  kv Sample.empty_world !! url Sample.remoteRequest = None
  /\ (SWR.match_ (makeSwr Sample.Date_parse Sample.remoteRequest Sample.proxied)
        None Sample.empty_world).1
     = Resolved (Sample.page 200 "origin, later answer")
  /\ scheduled (trace (SWR.match_ (makeSwr Sample.Date_parse Sample.remoteRequest Sample.proxied)
                         None Sample.empty_world).2)
     = [{| target := Sample.to_origin Sample.remoteRequest;
           arriving := Fetched (Sample.page 200 "origin, first answer") |}].
Proof.
  assert (kv Sample.empty_world !! url Sample.remoteRequest = None) as Hmiss
    by reflexivity.
  destruct (match_miss_fetch Sample.Date_parse Sample.remoteRequest Sample.proxied
              None Sample.empty_world Hmiss eq_refl) as (Hres & Htask & _).
  split; [exact Hmiss|]. split; [exact Hres | exact Htask].
Defined.

Lemma match_not_matched_error_witness :
  kv Sample.empty_world !! url Sample.remoteRequest = None
  /\ (SWR.match_ (makeSwr Sample.Date_parse Sample.remoteRequest Sample.proxied)
        (Sample.on false on_error) Sample.empty_world).1
     = Thrown {| NotMatchedError.message := "Caches are not matched";
                 NotMatchedError.request := Sample.remoteRequest;
                 NotMatchedError.name := "NotMatchedError" |}
  /\ length (scheduled (trace (SWR.match_
                (makeSwr Sample.Date_parse Sample.remoteRequest Sample.proxied)
                (Sample.on false on_error) Sample.empty_world).2)) = 1%nat.
Proof.
  assert (kv Sample.empty_world !! url Sample.remoteRequest = None) as Hmiss
    by reflexivity.
  destruct (proj1 (match_not_matched_error Sample.Date_parse Sample.remoteRequest
                     Sample.proxied (Sample.on false on_error) Sample.empty_world)
              Hmiss eq_refl) as (Hres & Htask & _).
  split; [exact Hmiss|]. split; [exact Hres|]. rewrite Htask. reflexivity.
Defined.

Lemma revalidate_by_status_witness :
  origin Sample.stale_world 0 (Sample.to_origin Sample.remoteRequest)
    = Fetched (Sample.page 404 "origin, first answer")
  /\ kv (RevalidateFunc.run
           (SWR.revalidate (makeSwr Sample.Date_parse Sample.remoteRequest Sample.proxied))
           Sample.stale_world).2 !! url Sample.remoteRequest = None
  /\ origin Sample.empty_world 0 (Sample.to_origin Sample.remoteRequest)
     = Fetched (Sample.page 200 "origin, first answer")
  /\ exists headers,
       (Cached.headers ∘ value)
         <$> kv (RevalidateFunc.run
                   (SWR.revalidate (makeSwr Sample.Date_parse Sample.remoteRequest
                                      Sample.proxied))
                   Sample.empty_world).2 !! url Sample.remoteRequest
       = Some (Some headers)
       /\ headers !! "content-type" = Some "text/html"
       /\ headers !! "etag" = None.
Proof.
  assert (origin Sample.stale_world (length (fetches (trace Sample.stale_world)))
            (proxy_of Sample.proxied Sample.remoteRequest)
          = Fetched (Sample.page 404 "origin, first answer")) as Hres
    by reflexivity.
  assert (origin Sample.empty_world (length (fetches (trace Sample.empty_world)))
            (proxy_of Sample.proxied Sample.remoteRequest)
          = Fetched (Sample.page 200 "origin, first answer")) as Hok
    by reflexivity.
  destruct (revalidate_by_status Sample.Date_parse Sample.remoteRequest Sample.proxied
              60 Sample.stale_world _ Hres) as (_ & H4 & _).
  destruct (revalidate_by_status Sample.Date_parse Sample.remoteRequest Sample.proxied
              60 Sample.empty_world _ Hok) as (H2 & _).
  split; [exact Hres|]. split; [apply H4; cbn; lia|]. split; [exact Hok|].
  destruct (H2 ltac:(cbn; lia)) as (headers & Hkv & Hlast & Hnone & _).
  exists headers. rewrite Hkv. split; [reflexivity|]. split.
  - apply (Hlast [] "content-type" "text/html" []); [reflexivity|].
    cbn. apply not_elem_of_nil.
  - apply Hnone. cbn. rewrite list_elem_of_singleton. discriminate.
Defined.

Lemma unrecognised_record_is_a_hit_witness :
  kv Sample.only_body_world !! url Sample.remoteRequest
    = Some {| value := Sample.only_body; expirationTtl := EXPIRATION_TTL |}
  /\ Cached.headers Sample.only_body = None
  /\ (SWR.match_ (makeSwr Sample.Date_parse Sample.remoteRequest None)
        None Sample.only_body_world).1
     = Resolved {| Response.status := 200;
                   Response.headers := [("content-type", "text/plain;charset=UTF-8")];
                   Response.body := "text" |}.
Proof.
  assert (kv Sample.only_body_world !! url Sample.remoteRequest
          = Some {| value := Sample.only_body; expirationTtl := EXPIRATION_TTL |}) as Hk
    by (vm_compute; reflexivity).
  assert (Cached.headers Sample.only_body = None) as Hnone by reflexivity.
  destruct (unrecognised_record_is_a_hit Sample.Date_parse Sample.remoteRequest None None
              60 Sample.only_body_world _ Hk eq_refl eq_refl (or_introl Hnone))
    as (_ & Hshape & Hres & _).
  split; [exact Hk|]. split; [exact Hnone|]. rewrite Hres, Hshape. reflexivity.
Defined.

(** C5, as stated, fails on [{}]: the read does not fail, and [match]
    answers from the record without scheduling or fetching anything, where
    a miss schedules a revalidation and answers from the origin. *)
Lemma unrecognised_record_is_not_a_miss :
  (KVCacheStoreType.match_ (KVCacheStore Sample.Date_parse 60)
     Sample.remoteRequest Sample.broken_world).1
    = (Some {| Response.status := 200; Response.headers := []; Response.body := "" |},
       JS.NaN)
  /\ (SWR.match_ (makeSwr Sample.Date_parse Sample.remoteRequest None)
        None Sample.broken_world).1
     = Resolved {| Response.status := 200; Response.headers := []; Response.body := "" |}
  /\ (SWR.match_ (makeSwr Sample.Date_parse Sample.remoteRequest None)
        None Sample.empty_world).1
     = Resolved (Sample.page 200 "origin, later answer")
  /\ scheduled (trace (SWR.match_ (makeSwr Sample.Date_parse Sample.remoteRequest None)
                         None Sample.broken_world).2) = []
  /\ fetches (trace (SWR.match_ (makeSwr Sample.Date_parse Sample.remoteRequest None)
                       None Sample.broken_world).2) = []
  /\ length (scheduled (trace (SWR.match_ (makeSwr Sample.Date_parse Sample.remoteRequest None)
                                 None Sample.empty_world).2)) = 1%nat
  /\ (SWR.match_ (makeSwr Sample.Date_parse Sample.remoteRequest None)
        None Sample.broken_world).1
     <> (SWR.match_ (makeSwr Sample.Date_parse Sample.remoteRequest None)
           None Sample.empty_world).1.
Proof. vm_compute. repeat split. discriminate. Qed.

Lemma cache_key_is_original_request_witness :
  url (Sample.to_origin Sample.remoteRequest) <> url Sample.remoteRequest
  /\ kv (RevalidateFunc.run
           (SWR.revalidate (makeSwr Sample.Date_parse Sample.remoteRequest Sample.proxied))
           Sample.empty_world).2 !! url (Sample.to_origin Sample.remoteRequest)
     = None.
Proof.
  assert (url (Sample.to_origin Sample.remoteRequest) <> url Sample.remoteRequest) as Hne
    by (vm_compute; discriminate).
  split; [exact Hne|].
  destruct (cache_key_is_original_request Sample.Date_parse Sample.remoteRequest
              Sample.proxied None (Sample.page 200 "")
              {| target := Sample.remoteRequest; arriving := NetworkError |}
              Sample.empty_world) as (_ & _ & _ & _ & _ & Helse).
  rewrite (Helse _ Hne). reflexivity.
Defined.

Lemma legacy_and_current_agree_witness :
  Sample.Date_parse "1970-01-01T00:01:00.000Z" = JS.Num 60000
  /\ (KVCacheStoreType.match_ (KVCacheStore Sample.Date_parse 60)
        Sample.remoteRequest Sample.legacy_world).1.2 = JS.Num 59
  /\ (KVCacheStoreType.match_ (KVCacheStore Sample.Date_parse 60)
        Sample.remoteRequest Sample.fresh_world).1.2 = JS.Num 59.
Proof.
  assert (Sample.Date_parse "1970-01-01T00:01:00.000Z" = JS.Num 60000) as Hparse
    by reflexivity.
  split; [exact Hparse|].
  apply (legacy_and_current_agree Sample.Date_parse Sample.remoteRequest Sample.remoteRequest
           60 Sample.legacy_world Sample.fresh_world
           {| value := Sample.legacy; expirationTtl := EXPIRATION_TTL |}
           {| value := Sample.current; expirationTtl := EXPIRATION_TTL |}
           "1970-01-01T00:01:00.000Z" 60000 Hparse).
  all: vm_compute; reflexivity.
Defined.

Lemma put_then_match_roundtrip_witness :
  0 <= 60 /\ 0 <= 400 <= 1000
  /\ now Sample.empty_world + 60 * 1000 <= JS.MAX_SAFE_INTEGER
  /\ exists r,
       (KVCacheStoreType.match_ (KVCacheStore Sample.Date_parse 60) Sample.remoteRequest
          (tick 400 (KVCacheStoreType.put (KVCacheStore Sample.Date_parse 60)
                       Sample.remoteRequest (Sample.page 200 "fresh") Sample.empty_world).2)).1.2
       = JS.Num r /\ 59 <= r <= 60.
Proof.
  assert (0 <= 60) as Httl by lia.
  assert (0 <= 400 <= 1000) as Hd by lia.
  assert (0 <= now Sample.empty_world) as Hnow by (vm_compute; discriminate).
  assert (now Sample.empty_world + 400 <= JS.MAX_SAFE_INTEGER) as Hlate
    by (vm_compute; discriminate).
  assert (now Sample.empty_world + 60 * 1000 <= JS.MAX_SAFE_INTEGER) as Hsafe
    by (vm_compute; discriminate).
  split; [exact Httl|]. split; [exact Hd|]. split; [exact Hsafe|].
  destruct (put_then_match_roundtrip Sample.Date_parse Sample.remoteRequest
              (Sample.page 200 "fresh") 60 400 Sample.empty_world Httl Hd Hnow Hlate Hsafe)
    as (cached & r & Hr & _ & Hbound & _).
  exists r. split; [rewrite Hr; reflexivity | exact Hbound].
Defined.

(** Inside the safe integers the doubles give what the integers give:
    a TTL of 60 seconds read back after 400 ms leaves 59 seconds, and 60
    when no time passed. *)
Example double_round_trip_in_range :
  Double.remainingTime (Double.expireAt 1762000000000%float 60%float)
    1762000000400%float = 59%float
  /\ Double.remainingTime (Double.expireAt 1762000000000%float 60%float)
       1762000000000%float = 60%float
  /\ Double.remainingTime (Double.expireAt 1762000000000%float 0%float)
       1762000000400%float = 0%float.
Proof. vm_compute. repeat split. Qed.

(** C8, as stated, fails in the doubles of the code for a TTL beyond the
    safe integers: for the whole number 10825254677937280, stored and read
    back at the same instant, the remaining time is two seconds short. *)
Lemma huge_ttl_round_trip_is_two_seconds_short :
  Double.Math_floor 10825254677937280%float = 10825254677937280%float
  /\ Double.remainingTime
       (Double.expireAt 1762000000000%float 10825254677937280%float)
       1762000000000%float
     = 10825254677937278%float
  /\ PrimFloat.sub 10825254677937280%float 10825254677937278%float = 2%float.
Proof. vm_compute. repeat split. Qed.

(** C9, as stated, fails for a TTL of one year: the hint is 31536000 and
    does not exceed the TTL. *)
Lemma year_long_ttl_is_not_exceeded :
  ttl_of Sample.year_long = 31536000
  /\ expirationTtl
       <$> kv (SWR.put (makeSwr Sample.Date_parse Sample.remoteRequest Sample.year_long)
                 (Sample.page 200 "fresh") Sample.empty_world).2 !! url Sample.remoteRequest
     = Some 31536000
  /\ ~ (forall e,
          kv (SWR.put (makeSwr Sample.Date_parse Sample.remoteRequest Sample.year_long)
                (Sample.page 200 "fresh") Sample.empty_world).2 !! url Sample.remoteRequest
            = Some e ->
          ttl_of Sample.year_long < expirationTtl e).
Proof.
  split; [reflexivity|]. split; [vm_compute; reflexivity|].
  intros H.
  specialize (H (written 31536000 (Sample.page 200 "fresh") 1000)).
  assert (31536000 < 31536000) as Habs by (apply H; vm_compute; reflexivity).
  lia.
Qed.

Lemma expiration_hint_is_fixed_witness :
  60 < 31536000
  /\ exists e,
       kv (KVCacheStoreType.put (KVCacheStore Sample.Date_parse 60) Sample.remoteRequest
             (Sample.page 200 "fresh") Sample.empty_world).2 !! url Sample.remoteRequest
       = Some e /\ 60 < expirationTtl e.
Proof.
  assert (60 < 31536000) as Hlt by lia.
  split; [exact Hlt|].
  destruct (expiration_hint_is_fixed Sample.Date_parse Sample.remoteRequest None
              (Sample.page 200 "fresh") 60 Sample.empty_world) as [(_ & _ & Hiff) _].
  apply Hiff. exact Hlt.
Defined.

Lemma restored_status_is_200_witness :
  (KVCacheStoreType.match_ (KVCacheStore Sample.Date_parse 60) Sample.remoteRequest
     (KVCacheStoreType.put (KVCacheStore Sample.Date_parse 60) Sample.remoteRequest
        (Sample.page 203 "partial") Sample.empty_world).2).1
    = (Some {| Response.status := 200;
               Response.headers := [("content-type", "text/html")];
               Response.body := "partial" |}, JS.Num 60)
  /\ Response.status (Sample.page 203 "partial") = 203
  /\ Response.status {| Response.status := 200;
                        Response.headers := [("content-type", "text/html")];
                        Response.body := "partial" |} = 200.
Proof.
  assert ((KVCacheStoreType.match_ (KVCacheStore Sample.Date_parse 60) Sample.remoteRequest
             (KVCacheStoreType.put (KVCacheStore Sample.Date_parse 60) Sample.remoteRequest
                (Sample.page 203 "partial") Sample.empty_world).2).1
          = (Some {| Response.status := 200;
                     Response.headers := [("content-type", "text/html")];
                     Response.body := "partial" |}, JS.Num 60)) as Hread
    by (vm_compute; reflexivity).
  pose proof (proj1 (restored_status_is_200 Sample.Date_parse Sample.remoteRequest 60
                       (KVCacheStoreType.put (KVCacheStore Sample.Date_parse 60)
                          Sample.remoteRequest (Sample.page 203 "partial")
                          Sample.empty_world).2
                       (Sample.page 203 "partial") (Sample.page 203 "partial"))
                _ _ Hread) as H200.
  split; [exact Hread|]. split; [reflexivity | exact H200].
Defined.

(** * Further properties of the code *)

Section Further.

Variable Date_parse : string -> JS.number.

Local Abbreviation swr := (makeSwr Date_parse).
Local Abbreviation store := (KVCacheStore Date_parse).

(** ** Headers as a JSON object *)

Lemma fromEntries_reverse (l : list (string * string)) :
  Object_fromEntries l = list_to_map (reverse l).
Proof.
  induction l as [|e l IH] using rev_ind; [reflexivity|].
  rewrite fromEntries_snoc, reverse_snoc, IH. reflexivity.
Qed.

Lemma fromEntries_to_list (m : gmap string string) :
  Object_fromEntries (map_to_list m) = m.
Proof.
  rewrite fromEntries_reverse.
  rewrite <- (list_to_map_to_list m) at 2.
  apply list_to_map_proper.
  - rewrite fmap_reverse, reverse_Permutation. apply NoDup_fst_map_to_list.
  - apply reverse_Permutation.
Qed.

Lemma has_header_true (name : string) (h : gmap string string) :
  has_header name h = true <-> exists k v, h !! k = Some v /\ lower k = name.
Proof.
  unfold has_header. rewrite existsb_exists. split.
  - intros ([k v] & Hin & Heq). exists k, v. split.
    + apply elem_of_map_to_list, list_elem_of_In, Hin.
    + apply String.eqb_eq, Heq.
  - intros (k & v & Hk & Heq). exists (k, v). split.
    + apply list_elem_of_In, elem_of_map_to_list, Hk.
    + apply String.eqb_eq, Heq.
Qed.

(** What the constructor adds to the headers, and that it adds it once. *)
Lemma Response_headers_spec (body : option string) (h : gmap string string) :
  (forall k v, h !! k = Some v -> Response_headers body h !! k = Some v)
  /\ (forall k v, Response_headers body h !! k = Some v ->
        h !! k = Some v
        \/ (k = "content-type" /\ v = TEXT_PLAIN
            /\ has_header "content-type" h = false))
  /\ (is_Some body -> has_header "content-type" (Response_headers body h) = true).
Proof.
  unfold Response_headers. destruct body as [b|].
  - destruct (has_header "content-type" h) eqn:Hhas.
    + split; [auto|]. split; [auto|]. intros _. exact Hhas.
    + assert (h !! "content-type" = None) as Hfree.
      { destruct (h !! "content-type") as [v|] eqn:Hv; [|reflexivity].
        assert (has_header "content-type" h = true) as Habs
          by (apply has_header_true; exists "content-type", v; auto).
        congruence. }
      split; [|split].
      * intros k v Hk. rewrite lookup_insert_ne; [exact Hk|]. congruence.
      * intros k v. destruct (decide (k = "content-type")) as [-> | Hne].
        -- rewrite lookup_insert_eq. intros [= <-]. auto.
        -- rewrite lookup_insert_ne by congruence. auto.
      * intros _. apply has_header_true. exists "content-type", TEXT_PLAIN.
        split; [apply lookup_insert_eq | reflexivity].
  - split; [auto|]. split; [auto|]. intros [? [=]].
Qed.

Lemma restored_headers (v : Cached.t) :
  headerToJson (restoreResponse v)
  = Response_headers (Cached.body v) (default ∅ (Cached.headers v)).
Proof. unfold headerToJson. cbn. apply fromEntries_to_list. Qed.

(** X1. [headerToJson] keeps, for a header name that occurs several
    times, the value of its last entry, and it has no value for a name
    that does not occur. *)
Theorem headerToJson_last_entry_wins (res : Response.t)
    (before after : list (string * string)) (name v : string) :
  Response.headers res = before ++ (name, v) :: after ->
  name ∉ after.*1 ->
  headerToJson res !! name = Some v
  /\ (forall other, other ∉ (Response.headers res).*1 -> headerToJson res !! other = None).
Proof.
  intros Hh Hlast. unfold headerToJson. split.
  - rewrite Hh. apply fromEntries_last, Hlast.
  - intros other. apply fromEntries_absent.
Qed.

(** X2. A response with header names in lower case that is stored by
    [put] and read back by [match] has the stored body and every stored
    header; the one header it can have beyond them is the content type of
    text, which the constructor adds when none was stored.  Storing what
    was read and reading it again changes nothing more. *)
Theorem stored_content_round_trip (req : Request) (res : Response.t) (ttl d : Z)
    (w : World) :
  lower_case_names res ->
  let w' := tick d (KVCacheStoreType.put (store ttl) req res w).2 in
  exists r rt,
    (KVCacheStoreType.match_ (store ttl) req w').1 = (Some r, rt)
    /\ Response.body r = Response.body res
    /\ (forall name v, headerToJson res !! name = Some v -> headerToJson r !! name = Some v)
    /\ (forall name v, headerToJson r !! name = Some v ->
          headerToJson res !! name = Some v
          \/ (name = "content-type" /\ v = "text/plain;charset=UTF-8"
              /\ has_header "content-type" (headerToJson res) = false))
    /\ (forall t t',
          written ttl (restoreResponse (value (written ttl r t'))) t = written ttl r t).
Proof.
  intros _. cbn zeta. rewrite store_put_eq, store_match_eq. cbn [fst snd].
  unfold tick, emit, set_kv. cbn [kv now]. rewrite lookup_insert_eq.
  eexists _, _. split; [reflexivity|].
  set (v := value (written ttl res (now w))).
  assert (headerToJson (restoreResponse v)
          = Response_headers (Some (Response.body res)) (headerToJson res)) as Hh
    by apply restored_headers.
  destruct (Response_headers_spec (Some (Response.body res)) (headerToJson res))
    as (Hkeep & Honly & Hhas).
  split; [reflexivity|]. split; [|split].
  - intros name x Hx. rewrite Hh. apply Hkeep, Hx.
  - intros name x. rewrite Hh. apply Honly.
  - intros t t'. unfold written at 1 3. f_equal. unfold CachedData. f_equal.
    rewrite restored_headers. cbn [value written CachedData Cached.body Cached.headers default].
    unfold id. rewrite Hh. unfold Response_headers at 1.
    rewrite (Hhas ltac:(eauto)). reflexivity.
Qed.

(** ** Freshness *)

Lemma put_world req options res w :
  kv (SWR.put (swr req options) res w).2
    = <[url req := written (ttl_of options) res (now w)]> (kv w)
  /\ now (SWR.put (swr req options) res w).2 = now w
  /\ origin (SWR.put (swr req options) res w).2 = origin w.
Proof. rewrite put_eq. destruct (debug_of options); auto. Qed.

Lemma clear_world req options w :
  kv (SWR.clear (swr req options) w).2 = delete (url req) (kv w)
  /\ now (SWR.clear (swr req options) w).2 = now w
  /\ origin (SWR.clear (swr req options) w).2 = origin w
  /\ fetches (trace (SWR.clear (swr req options) w).2) = fetches (trace w).
Proof. rewrite clear_eq. destruct (debug_of options); observe; auto. Qed.

(** The staleness test of [match] on a record of the current shape. *)
Lemma stale_iff (v : Cached.t) (expireAt t : Z) :
  Cached.expireAt v = Some expireAt ->
  remainingTime_at Date_parse v t = JS.Num (Z.max ((expireAt - t) / 1000) 0)
  /\ (JS.ltb (remainingTime_at Date_parse v t) (JS.Num 1) = true <-> expireAt - t < 1000).
Proof.
  intros Hv. unfold remainingTime_at, remainingTime_ms. rewrite Hv. cbn.
  split; [reflexivity|].
  pose proof (Z.div_mod (expireAt - t) 1000 ltac:(lia)) as Hdiv.
  pose proof (Z.mod_pos_bound (expireAt - t) 1000 ltac:(lia)) as Hmod.
  rewrite Z.ltb_lt. lia.
Qed.

(** X3. A response cached with [put] and looked up [d] milliseconds
    later (all times and the expiry within the safe integers) is served
    from the cache, as the response rebuilt from the record that [put]
    wrote, with its body; without [forceRevalidate] no revalidation is
    scheduled as long as a full second of the TTL is left, and exactly one
    is scheduled otherwise (always for a TTL of 0). *)
Theorem put_then_match_decision (req : Request) (options : option SwrOptions.t)
    (opt : option MatchOption.t) (res : Response.t) (d : Z) (w : World) :
  0 <= now w ->
  0 <= d ->
  now w + d <= JS.MAX_SAFE_INTEGER ->
  0 <= ttl_of options ->
  now w + ttl_of options * 1000 <= JS.MAX_SAFE_INTEGER ->
  let w1 := tick d (SWR.put (swr req options) res w).2 in
  let w2 := (SWR.match_ (swr req options) opt w1).2 in
  (SWR.match_ (swr req options) opt w1).1
    = Resolved (restoreResponse (value (written (ttl_of options) res (now w))))
  /\ Response.body (restoreResponse (value (written (ttl_of options) res (now w))))
     = Response.body res
  /\ (forceRevalidate_of opt = false -> d <= (ttl_of options - 1) * 1000 ->
      scheduled (trace w2) = scheduled (trace w1)
      /\ fetches (trace w2) = fetches (trace w1))
  /\ (forceRevalidate_of opt = true \/ (ttl_of options - 1) * 1000 < d ->
      scheduled (trace w2)
        = scheduled (trace w1) ++ [revalidation (proxy_of options) req w1]).
Proof.
  intros _ _ _ _ _.
  cbn zeta. destruct (put_world req options res w) as (Hkv & Hnow & _).
  set (w0 := (SWR.put (swr req options) res w).2) in *.
  rewrite match_eq. cbn zeta.
  replace (kv (tick d w0) !! url req)
    with (Some (written (ttl_of options) res (now w))).
  2:{ unfold tick. cbn [kv]. rewrite Hkv, lookup_insert_eq. reflexivity. }
  destruct (stale_iff (value (written (ttl_of options) res (now w)))
              (now w + ttl_of options * 1000) (now (tick d w0)) eq_refl) as [_ Hstale].
  replace (now (tick d w0)) with (now w + d) in * by (unfold tick; cbn; lia).
  cbn [fst snd]. split; [reflexivity|]. split; [reflexivity|]. split.
  - intros -> Hd. cbn [orb].
    destruct (JS.ltb _ _); [pose proof (proj1 Hstale eq_refl); lia|].
    destruct (debug_of options); observe; auto.
  - intros Hcase.
    assert (forceRevalidate_of opt
            || JS.ltb (remainingTime_at Date_parse
                         (value (written (ttl_of options) res (now w))) (now w + d))
                 (JS.Num 1) = true) as ->.
    { destruct Hcase as [-> | Hd]; [reflexivity|].
      apply orb_true_iff. right. apply Hstale. lia. }
    destruct (debug_of options); observe; auto.
Qed.

(** X4. For a record that has an [expireAt], with the expiry and the
    times of reading within the safe integers, the remaining time that
    [match] reports is a non-negative whole number of seconds; it does not
    depend on the other keys of the record, it never grows as time passes,
    and it is 0 exactly when less than a full second is left. *)
Theorem remaining_time_of_current_shape (req : Request) (ttl : Z) (w : World)
    (e : KVEntry) (expireAt d : Z) :
  kv w !! url req = Some e ->
  Cached.expireAt (value e) = Some expireAt ->
  0 <= d ->
  0 <= now w ->
  now w + d <= JS.MAX_SAFE_INTEGER ->
  0 <= expireAt <= JS.MAX_SAFE_INTEGER ->
  exists r r',
    (KVCacheStoreType.match_ (store ttl) req w).1.2 = JS.Num r
    /\ (KVCacheStoreType.match_ (store ttl) req (tick d w)).1.2 = JS.Num r'
    /\ r = Z.max ((expireAt - now w) / 1000) 0
    /\ 0 <= r' <= r
    /\ (r = 0 <-> expireAt - now w < 1000).
Proof.
  intros Hk He Hd _ _ _. rewrite !store_match_eq. unfold tick. cbn [kv now fst snd].
  rewrite Hk. cbn [snd].
  destruct (stale_iff (value e) expireAt (now w) He) as [-> _].
  destruct (stale_iff (value e) expireAt (now w + d) He) as [-> _].
  eexists _, _. split; [reflexivity|]. split; [reflexivity|]. split; [reflexivity|].
  pose proof (Z.div_mod (expireAt - now w) 1000 ltac:(lia)) as Hdiv.
  pose proof (Z.mod_pos_bound (expireAt - now w) 1000 ltac:(lia)) as Hmod.
  pose proof (Z.div_le_mono (expireAt - (now w + d)) (expireAt - now w) 1000
                ltac:(lia) ltac:(lia)) as Hmono.
  split; lia.
Qed.

(** X5. A record of the deprecated shape whose [cacheTtl] is not a date
    is served as a hit with NaN as its remaining time, and [match]
    schedules a revalidation for it only under [forceRevalidate]. *)
Theorem unparsable_cacheTtl_is_a_hit (req : Request) (options : option SwrOptions.t)
    (opt : option MatchOption.t) (ttl : Z) (w : World) (e : KVEntry) (cacheTtl : string) :
  kv w !! url req = Some e ->
  Cached.expireAt (value e) = None ->
  Cached.cacheTtl (value e) = Some cacheTtl ->
  Date_parse cacheTtl = JS.NaN ->
  let w' := (SWR.match_ (swr req options) opt w).2 in
  (KVCacheStoreType.match_ (store ttl) req w).1
    = (Some (restoreResponse (value e)), JS.NaN)
  /\ (SWR.match_ (swr req options) opt w).1 = Resolved (restoreResponse (value e))
  /\ (forceRevalidate_of opt = false ->
      scheduled (trace w') = scheduled (trace w) /\ fetches (trace w') = fetches (trace w)).
Proof.
  intros Hk Hexp Httl Hnan. rewrite store_match_eq, match_eq, Hk. cbn zeta. cbn [fst snd].
  assert (remainingTime_at Date_parse (value e) (now w) = JS.NaN) as ->.
  { unfold remainingTime_at, remainingTime_ms, Date_getTime.
    rewrite Hexp, Httl, Hnan. reflexivity. }
  cbn [JS.ltb]. rewrite orb_false_r.
  split; [reflexivity|]. split; [reflexivity|].
  intros ->. destruct (debug_of options); observe; auto.
Qed.

(** ** Worlds after an operation *)

Lemma match_world req options opt w :
  kv (SWR.match_ (swr req options) opt w).2 = kv w
  /\ now (SWR.match_ (swr req options) opt w).2 = now w
  /\ origin (SWR.match_ (swr req options) opt w).2 = origin w.
Proof.
  rewrite match_eq. cbn zeta. destruct (kv w !! url req) as [e|].
  - destruct (forceRevalidate_of opt || _), (debug_of options); auto.
  - destruct (onNotMatched_of opt), (debug_of options); auto.
Qed.

Lemma match_schedules req options opt w :
  match kv w !! url req with
  | Some e =>
      forceRevalidate_of opt = true
      \/ JS.ltb (remainingTime_at Date_parse (value e) (now w)) (JS.Num 1) = true
  | None => True
  end ->
  scheduled (trace (SWR.match_ (swr req options) opt w).2)
    = scheduled (trace w) ++ [revalidation (proxy_of options) req w].
Proof.
  rewrite match_eq. cbn zeta. destruct (kv w !! url req) as [e|].
  - intros Hcase.
    assert (forceRevalidate_of opt
            || JS.ltb (remainingTime_at Date_parse (value e) (now w)) (JS.Num 1) = true) as ->.
    { destruct Hcase as [-> | ->]; [reflexivity | apply orb_true_r]. }
    destruct (debug_of options); observe; reflexivity.
  - intros _. destruct (onNotMatched_of opt), (debug_of options); observe; reflexivity.
Qed.

Lemma resume_world req options p w :
  now (RevalidateFunc.resume (SWR.revalidate (swr req options)) p w).2 = now w
  /\ origin (RevalidateFunc.resume (SWR.revalidate (swr req options)) p w).2 = origin w
  /\ (kv (RevalidateFunc.resume (SWR.revalidate (swr req options)) p w).2 = kv w
      \/ kv (RevalidateFunc.resume (SWR.revalidate (swr req options)) p w).2
           = delete (url req) (kv w)
      \/ exists x, kv (RevalidateFunc.resume (SWR.revalidate (swr req options)) p w).2
                   = <[url req := x]> (kv w)).
Proof.
  rewrite resume_eq. destruct (arriving p) as [r|]; [|cbn [snd]; auto].
  destruct ((400 <=? Response.status r) && (Response.status r <=? 499));
    [|destruct ((200 <=? Response.status r) && (Response.status r <=? 299))];
    cbn [snd]; [| |auto].
  - destruct (clear_world req options w) as (-> & -> & -> & _). auto.
  - destruct (put_world req options r w) as (-> & -> & ->).
    split; [reflexivity|]. split; [reflexivity|]. right. right. eexists. reflexivity.
Qed.

(** ** An origin that cannot be reached *)

(** X6. When every fetch fails: a hit is still served from the cache, a
    miss settles with the failure of the fetch under the [fetch] policy
    and with the [NotMatchedError] under the [error] policy, every task
    that [match] registers rejects without touching the world, and a
    direct [revalidate()] rejects and leaves the namespace as it was. *)
Theorem unreachable_origin (req : Request) (options : option SwrOptions.t)
    (opt : option MatchOption.t) (w : World) :
  (forall n r, origin w n r = NetworkError) ->
  let s := swr req options in
  (forall e, kv w !! url req = Some e ->
     (SWR.match_ s opt w).1 = Resolved (restoreResponse (value e)))
  /\ (kv w !! url req = None ->
      (SWR.match_ s opt w).1
      = match onNotMatched_of opt with
        | on_fetch => FetchFailed
        | on_error => Thrown (NotMatchedError.new "Caches are not matched" req)
        end)
  /\ (forall p, p ∈ scheduled (trace (SWR.match_ s opt w).2) ->
      p ∈ scheduled (trace w)
      \/ forall v, RevalidateFunc.resume (SWR.revalidate s) p v = (Rejected, v))
  /\ ((RevalidateFunc.run (SWR.revalidate s) w).1 = Rejected
      /\ kv (RevalidateFunc.run (SWR.revalidate s) w).2 = kv w).
Proof.
  intros Hdown. cbn zeta.
  assert (forall v, RevalidateFunc.resume (SWR.revalidate (swr req options))
                      (revalidation (proxy_of options) req w) v = (Rejected, v)) as Htask.
  { intros v. rewrite resume_eq. unfold revalidation. cbn [arriving].
    rewrite Hdown. reflexivity. }
  split; [|split; [|split]].
  - intros e Hk. rewrite match_eq, Hk. reflexivity.
  - intros Hk. rewrite match_eq, Hk. cbn zeta.
    destruct (onNotMatched_of opt); cbn [fst]; [rewrite Hdown|]; reflexivity.
  - intros p. rewrite match_eq. cbn zeta. destruct (kv w !! url req) as [e|].
    + destruct (forceRevalidate_of opt || _), (debug_of options); observe;
        rewrite ?elem_of_app, ?list_elem_of_singleton; intros Hp;
        try (left; exact Hp); destruct Hp as [Hp | ->]; auto.
    + destruct (onNotMatched_of opt), (debug_of options); observe;
        rewrite ?elem_of_app, ?list_elem_of_singleton; intros Hp;
        destruct Hp as [Hp | ->]; auto.
  - rewrite run_eq, Htask. cbn [fst snd]. split; [reflexivity|].
    destruct (debug_of options); reflexivity.
Qed.

(** ** Overlapping revalidations *)

(** X7. When two revalidation tasks settle one after the other and the
    later one carries a 2xx or a 4xx answer, the namespace is what the
    later task alone would have left: the last writer wins, and settling a
    task twice changes nothing more. *)
Theorem later_revalidation_wins (req : Request) (options : option SwrOptions.t)
    (p1 p2 : Task) (res : Response.t) (w : World) :
  arriving p2 = Fetched res ->
  200 <= Response.status res <= 299 \/ 400 <= Response.status res <= 499 ->
  let f := SWR.revalidate (swr req options) in
  kv (RevalidateFunc.resume f p2 (RevalidateFunc.resume f p1 w).2).2
  = kv (RevalidateFunc.resume f p2 w).2.
Proof.
  intros Hres Hclass. cbn zeta.
  destruct (resume_world req options p1 w) as (Hnow & _ & Hkv).
  set (w1 := (RevalidateFunc.resume (SWR.revalidate (swr req options)) p1 w).2) in *.
  destruct (resume_by_status Date_parse req options p2 w1 res Hres) as (H2 & H4 & _).
  destruct (resume_by_status Date_parse req options p2 w res Hres) as (H2' & H4' & _).
  destruct Hclass as [Hs | Hs].
  - destruct (H2 Hs) as [-> _]. destruct (H2' Hs) as [-> _]. rewrite Hnow.
    destruct Hkv as [-> | [-> | [x ->]]];
      [reflexivity | apply insert_delete_eq | apply insert_insert_eq].
  - destruct (H4 Hs) as [-> _]. destruct (H4' Hs) as [-> _].
    destruct Hkv as [-> | [-> | [x ->]]];
      [reflexivity | apply delete_delete_eq | apply delete_insert_eq].
Qed.

(** ** Eviction *)

(** X8. After [clear()] the cache has no entry for the request, so the
    next [match] goes to the origin or fails with [NotMatchedError],
    according to the policy; clearing again, or clearing when there was no
    entry, leaves the namespace as it is. *)
Theorem clear_then_match_misses (req : Request) (options : option SwrOptions.t)
    (opt : option MatchOption.t) (w : World) :
  let s := swr req options in
  let w1 := (SWR.clear s w).2 in
  kv w1 !! url req = None
  /\ kv (SWR.clear s w1).2 = kv w1
  /\ (kv w !! url req = None -> kv w1 = kv w)
  /\ (SWR.match_ s opt w1).1
     = match onNotMatched_of opt with
       | on_fetch => settle (origin w (S (length (fetches (trace w)))) (proxy_of options req))
       | on_error => Thrown (NotMatchedError.new "Caches are not matched" req)
       end.
Proof.
  cbn zeta. destruct (clear_world req options w) as (Hkv & _ & Horigin & Hfetches).
  destruct (clear_world req options (SWR.clear (swr req options) w).2) as (Hkv' & _).
  set (w1 := (SWR.clear (swr req options) w).2) in *.
  assert (kv w1 !! url req = None) as Hmiss by (rewrite Hkv; apply lookup_delete_eq).
  split; [exact Hmiss|]. split; [|split].
  - rewrite Hkv'. apply delete_id. exact Hmiss.
  - intros Hnone. rewrite Hkv. apply delete_id. exact Hnone.
  - rewrite match_eq, Hmiss. cbn zeta.
    destruct (onNotMatched_of opt); cbn [fst]; [|reflexivity].
    rewrite Horigin, Hfetches. reflexivity.
Qed.

(** ** The debug switch *)

(** X9. Without [debug] no operation writes to the console; with it,
    [put] and [clear] write one line each and a [match] that misses
    writes the revalidation line and then the miss line. *)
Theorem console_follows_debug (req : Request) (options : option SwrOptions.t)
    (opt : option MatchOption.t) (res : Response.t) (p : Task) (w : World) :
  let s := swr req options in
  (debug_of options = false ->
     console_lines (trace (SWR.match_ s opt w).2) = console_lines (trace w)
     /\ console_lines (trace (SWR.put s res w).2) = console_lines (trace w)
     /\ console_lines (trace (SWR.clear s w).2) = console_lines (trace w)
     /\ console_lines (trace (RevalidateFunc.run (SWR.revalidate s) w).2)
        = console_lines (trace w)
     /\ console_lines (trace (RevalidateFunc.resume (SWR.revalidate s) p w).2)
        = console_lines (trace w))
  /\ (debug_of options = true ->
      console_lines (trace (SWR.put s res w).2)
        = console_lines (trace w) ++ ["created the cache"]
      /\ console_lines (trace (SWR.clear s w).2)
         = console_lines (trace w) ++ ["deleted the cache"]
      /\ (kv w !! url req = None ->
          console_lines (trace (SWR.match_ s opt w).2)
          = console_lines (trace w) ++ ["revalidate the cache"; "no hit caches"])).
Proof.
  cbn zeta.
  assert (forall q v, debug_of options = false ->
            console_lines (trace (RevalidateFunc.resume (SWR.revalidate (swr req options)) q v).2)
            = console_lines (trace v)) as Hresume.
  { intros q v Hd. rewrite resume_eq. destruct (arriving q) as [r|]; [|reflexivity].
    rewrite put_eq, clear_eq, Hd.
    destruct ((400 <=? Response.status r) && (Response.status r <=? 499));
      [|destruct ((200 <=? Response.status r) && (Response.status r <=? 299))];
      unfold console_lines; observe; reflexivity. }
  split.
  - intros Hd. repeat split.
    + rewrite match_eq, Hd. cbn zeta. destruct (kv w !! url req) as [e|].
      * destruct (forceRevalidate_of opt || _); unfold console_lines; observe; reflexivity.
      * destruct (onNotMatched_of opt); unfold console_lines; observe; reflexivity.
    + rewrite put_eq, Hd. unfold console_lines. observe. reflexivity.
    + rewrite clear_eq, Hd. unfold console_lines. observe. reflexivity.
    + rewrite run_eq, (Hresume _ _ Hd), Hd. unfold console_lines. observe. reflexivity.
    + apply Hresume, Hd.
  - intros Hd. repeat split.
    + rewrite put_eq, Hd. unfold console_lines. observe. reflexivity.
    + rewrite clear_eq, Hd. unfold console_lines. observe. reflexivity.
    + intros Hmiss. rewrite match_eq, Hmiss, Hd. cbn zeta.
      destruct (onNotMatched_of opt); unfold console_lines; observe; reflexivity.
Qed.

(** ** The key is the URL alone *)

(** X10. The store uses nothing of a request but its URL: what was cached
    through one request is served to any request with the same URL,
    whatever its method and whatever the options of the second engine,
    and is evicted by its [clear]. *)
Theorem cache_is_keyed_by_url_alone (req req' : Request)
    (options options' : option SwrOptions.t) (opt : option MatchOption.t)
    (res : Response.t) (d : Z) (w : World) :
  url req' = url req ->
  let w1 := tick d (SWR.put (swr req options) res w).2 in
  (SWR.match_ (swr req' options') opt w1).1
    = Resolved (restoreResponse (value (written (ttl_of options) res (now w))))
  /\ Response.body (restoreResponse (value (written (ttl_of options) res (now w))))
     = Response.body res
  /\ kv (SWR.clear (swr req' options') w1).2 !! url req = None.
Proof.
  intros Hurl. cbn zeta. destruct (put_world req options res w) as (Hkv & _).
  set (w0 := (SWR.put (swr req options) res w).2) in *.
  split; [|split; [reflexivity|]].
  - rewrite match_eq. cbn zeta. unfold tick at 1. cbn [kv].
    rewrite Hurl, Hkv, lookup_insert_eq. reflexivity.
  - destruct (clear_world req' options' (tick d w0)) as (-> & _).
    rewrite Hurl. apply lookup_delete_eq.
Qed.

(** ** A miss, its revalidation, the next request *)

(** X11. After a miss whose scheduled revalidation is answered with a
    2xx status (all times and the expiry within the safe integers), the
    next [match] is a hit that serves the response rebuilt from what the
    revalidation stored, with the body it fetched, and it schedules nothing
    more when it is made without [forceRevalidate] while a full second of
    the TTL is left. *)
Theorem miss_then_revalidated_hit (req : Request) (options : option SwrOptions.t)
    (opt opt' : option MatchOption.t) (res : Response.t) (d : Z) (w : World) :
  kv w !! url req = None ->
  origin w (length (fetches (trace w))) (proxy_of options req) = Fetched res ->
  200 <= Response.status res <= 299 ->
  0 <= now w ->
  0 <= d ->
  now w + d <= JS.MAX_SAFE_INTEGER ->
  0 <= ttl_of options ->
  now w + ttl_of options * 1000 <= JS.MAX_SAFE_INTEGER ->
  let s := swr req options in
  let w1 := (SWR.match_ s opt w).2 in
  let p := revalidation (proxy_of options) req w in
  let w2 := tick d (RevalidateFunc.resume (SWR.revalidate s) p w1).2 in
  let w3 := (SWR.match_ s opt' w2).2 in
  scheduled (trace w1) = scheduled (trace w) ++ [p]
  /\ (SWR.match_ s opt' w2).1
     = Resolved (restoreResponse (value (written (ttl_of options) res (now w))))
  /\ Response.body (restoreResponse (value (written (ttl_of options) res (now w))))
     = Response.body res
  /\ (forceRevalidate_of opt' = false -> d <= (ttl_of options - 1) * 1000 ->
      scheduled (trace w3) = scheduled (trace w2)
      /\ fetches (trace w3) = fetches (trace w2)).
Proof.
  intros Hmiss Hres Hs _ _ _ _ _. cbn zeta.
  pose proof (match_schedules req options opt w) as Hsched. rewrite Hmiss in Hsched.
  destruct (match_world req options opt w) as (Hkv1 & Hnow1 & _).
  set (w1 := (SWR.match_ (swr req options) opt w).2) in *.
  set (p := revalidation (proxy_of options) req w) in *.
  destruct (resume_by_status Date_parse req options p w1 res Hres) as (H2 & _).
  destruct (H2 Hs) as [Hkv2 _]. clear H2.
  destruct (resume_world req options p w1) as (Hnow2 & _).
  set (w2 := (RevalidateFunc.resume (SWR.revalidate (swr req options)) p w1).2) in *.
  split; [exact (Hsched I)|].
  rewrite match_eq. cbn zeta.
  replace (kv (tick d w2) !! url req)
    with (Some (written (ttl_of options) res (now w))).
  2:{ unfold tick. cbn [kv]. rewrite Hkv2, lookup_insert_eq, Hnow1. reflexivity. }
  destruct (stale_iff (value (written (ttl_of options) res (now w)))
              (now w + ttl_of options * 1000) (now (tick d w2)) eq_refl) as [_ Hstale].
  replace (now (tick d w2)) with (now w + d) in *
    by (unfold tick; cbn [now]; rewrite Hnow2, Hnow1; reflexivity).
  cbn [fst snd]. split; [reflexivity|]. split; [reflexivity|].
  intros -> Hd. cbn [orb].
  destruct (JS.ltb _ _); [pose proof (proj1 Hstale eq_refl); lia|].
  destruct (debug_of options); observe; auto.
Qed.

(** X12. A hit that is stale or forced is served from the cache; when
    its scheduled revalidation is answered with a 4xx status the entry is
    gone, and the next [match] under the [error] policy fails with
    [NotMatchedError]. *)
Theorem stale_hit_then_evicted (req : Request) (options : option SwrOptions.t)
    (opt opt' : option MatchOption.t) (e : KVEntry) (res : Response.t) (d : Z)
    (w : World) :
  kv w !! url req = Some e ->
  forceRevalidate_of opt = true
    \/ JS.ltb (remainingTime_at Date_parse (value e) (now w)) (JS.Num 1) = true ->
  origin w (length (fetches (trace w))) (proxy_of options req) = Fetched res ->
  400 <= Response.status res <= 499 ->
  onNotMatched_of opt' = on_error ->
  let s := swr req options in
  let w1 := (SWR.match_ s opt w).2 in
  let p := revalidation (proxy_of options) req w in
  let w2 := tick d (RevalidateFunc.resume (SWR.revalidate s) p w1).2 in
  (SWR.match_ s opt w).1 = Resolved (restoreResponse (value e))
  /\ scheduled (trace w1) = scheduled (trace w) ++ [p]
  /\ kv w2 !! url req = None
  /\ (SWR.match_ s opt' w2).1
     = Thrown (NotMatchedError.new "Caches are not matched" req).
Proof.
  intros Hk Hcase Hres Hs Hpolicy. cbn zeta.
  pose proof (match_schedules req options opt w) as Hsched. rewrite Hk in Hsched.
  split; [rewrite match_eq, Hk; reflexivity|].
  set (w1 := (SWR.match_ (swr req options) opt w).2) in *.
  set (p := revalidation (proxy_of options) req w) in *.
  destruct (resume_by_status Date_parse req options p w1 res Hres) as (_ & H4 & _).
  destruct (H4 Hs) as [Hkv2 _]. clear H4.
  set (w2 := (RevalidateFunc.resume (SWR.revalidate (swr req options)) p w1).2) in *.
  assert (kv (tick d w2) !! url req = None) as Hgone.
  { unfold tick. cbn [kv]. rewrite Hkv2. apply lookup_delete_eq. }
  split; [exact (Hsched Hcase)|]. split; [exact Hgone|].
  rewrite match_eq, Hgone, Hpolicy. reflexivity.
Qed.

(** ** Defaults and the start of the freshness window *)

(** X13. An engine made without options caches for 60 seconds, sends its
    fetches to the original request itself and writes nothing to the
    console. *)
Theorem defaults_of_makeSwr (req : Request) (options : option SwrOptions.t)
    (res : Response.t) (w : World) :
  options = None
    \/ options = Some {| SwrOptions.ttl := None; SwrOptions.proxy := None;
                         SwrOptions.debug := None |} ->
  let s := swr req options in
  kv (SWR.put s res w).2 !! url req
    = Some {| value := CachedData (headerToJson res) (Response.body res) (now w + 60000);
              expirationTtl := EXPIRATION_TTL |}
  /\ console_lines (trace (SWR.match_ s None w).2) = console_lines (trace w)
  /\ (kv w !! url req = None ->
      (SWR.match_ s None w).1 = settle (origin w (S (length (fetches (trace w)))) req)
      /\ fetches (trace (SWR.match_ s None w).2) = fetches (trace w) ++ [req; req]).
Proof.
  intros Hopt. cbn zeta.
  assert (ttl_of options = 60 /\ proxy_of options = PROXY_DEFAULT
          /\ debug_of options = false) as (Httl & Hproxy & Hdebug).
  { destruct Hopt as [-> | ->]; auto. }
  destruct (put_world req options res w) as (-> & _).
  rewrite lookup_insert_eq, Httl, match_eq, Hproxy, Hdebug. cbn zeta.
  split; [reflexivity|].
  destruct (kv w !! url req) as [e|].
  - split; [|discriminate].
    destruct (_ || _); unfold console_lines; observe; reflexivity.
  - split; [unfold console_lines; observe; reflexivity|].
    intros _. cbn. split; [reflexivity|]. observe. reflexivity.
Qed.

(** X14. The freshness window of a revalidated entry starts when the
    answer is stored, not when [match] issued the fetch: a task registered
    by [match] and settled [d] milliseconds later with a 2xx answer writes
    an entry that expires one TTL after the time of settling. *)
Theorem freshness_counts_from_storing (req : Request) (options : option SwrOptions.t)
    (opt : option MatchOption.t) (res : Response.t) (d : Z) (w : World) :
  let s := swr req options in
  let p := revalidation (proxy_of options) req w in
  match kv w !! url req with
  | Some e =>
      forceRevalidate_of opt = true
      \/ JS.ltb (remainingTime_at Date_parse (value e) (now w)) (JS.Num 1) = true
  | None => True
  end ->
  arriving p = Fetched res ->
  200 <= Response.status res <= 299 ->
  scheduled (trace (SWR.match_ s opt w).2) = scheduled (trace w) ++ [p]
  /\ kv (RevalidateFunc.resume (SWR.revalidate s) p (tick d (SWR.match_ s opt w).2)).2
       !! url req
     = Some {| value := CachedData (headerToJson res) (Response.body res)
                          (now w + d + ttl_of options * 1000);
               expirationTtl := EXPIRATION_TTL |}.
Proof.
  cbn zeta. intros Hcase Hres Hs.
  split; [exact (match_schedules req options opt w Hcase)|].
  destruct (match_world req options opt w) as (_ & Hnow & _).
  set (w1 := (SWR.match_ (swr req options) opt w).2) in *.
  destruct (resume_by_status Date_parse req options
              (revalidation (proxy_of options) req w) (tick d w1) res Hres) as (H2 & _).
  destruct (H2 Hs) as [-> _]. rewrite lookup_insert_eq.
  unfold tick at 1. cbn [now]. rewrite Hnow. reflexivity.
Qed.

End Further.

(** * Instances of the further properties *)

Lemma headerToJson_last_entry_wins_witness :
  Response.headers Sample.two_cookies
    = [("content-type", "text/html"); ("set-cookie", "a=1")]
      ++ ("set-cookie", "b=2") :: []
  /\ headerToJson Sample.two_cookies !! "set-cookie" = Some "b=2"
  /\ headerToJson Sample.two_cookies !! "etag" = None.
Proof.
  assert (Response.headers Sample.two_cookies
          = [("content-type", "text/html"); ("set-cookie", "a=1")]
            ++ ("set-cookie", "b=2") :: []) as Hh
    by reflexivity.
  assert ("set-cookie" ∉ ([] : list (string * string)).*1) as Hlast
    by (cbn; apply not_elem_of_nil).
  destruct (headerToJson_last_entry_wins Sample.two_cookies _ _ _ _ Hh Hlast) as [Hv Hno].
  split; [exact Hh|]. split; [exact Hv|].
  apply Hno. cbn. rewrite !elem_of_cons, elem_of_nil.
  intros [H | [H | [H | []]]]; discriminate.
Defined.

Lemma stored_content_round_trip_witness :
  lower_case_names Sample.bare
  /\ exists r,
       (KVCacheStoreType.match_ (KVCacheStore Sample.Date_parse 60) Sample.remoteRequest
          (tick 0 (KVCacheStoreType.put (KVCacheStore Sample.Date_parse 60)
                     Sample.remoteRequest Sample.bare Sample.empty_world).2)).1.1 = Some r
       /\ headerToJson r !! "etag" = Some "1"
       /\ Response.headers r
          = [("content-type", "text/plain;charset=UTF-8"); ("etag", "1")].
Proof.
  assert (lower_case_names Sample.bare) as Hlower by (repeat constructor).
  split; [exact Hlower|].
  destruct (stored_content_round_trip Sample.Date_parse Sample.remoteRequest Sample.bare
              60 0 Sample.empty_world Hlower) as (r & rt & Hr & _ & Hkeep & _).
  exists r. split; [rewrite Hr; reflexivity|]. split.
  - apply Hkeep. vm_compute. reflexivity.
  - assert ((KVCacheStoreType.match_ (KVCacheStore Sample.Date_parse 60)
               Sample.remoteRequest
               (tick 0 (KVCacheStoreType.put (KVCacheStore Sample.Date_parse 60)
                          Sample.remoteRequest Sample.bare Sample.empty_world).2)).1.1
            = Some {| Response.status := 200;
                      Response.headers :=
                        [("content-type", "text/plain;charset=UTF-8"); ("etag", "1")];
                      Response.body := "bare" |}) as Hval
      by (vm_compute; reflexivity).
    rewrite Hr in Hval. cbn in Hval. injection Hval as ->. reflexivity.
Defined.

Lemma put_then_match_decision_witness :
  59000 <= (ttl_of Sample.proxied - 1) * 1000
  /\ now Sample.empty_world + ttl_of Sample.proxied * 1000 <= JS.MAX_SAFE_INTEGER
  /\ scheduled (trace (SWR.match_ (makeSwr Sample.Date_parse Sample.remoteRequest Sample.proxied)
                         None
                         (tick 59000
                            (SWR.put (makeSwr Sample.Date_parse Sample.remoteRequest
                                        Sample.proxied)
                               Sample.bare Sample.empty_world).2)).2) = []
  /\ (SWR.match_ (makeSwr Sample.Date_parse Sample.remoteRequest Sample.proxied)
        None
        (tick 59000
           (SWR.put (makeSwr Sample.Date_parse Sample.remoteRequest Sample.proxied)
              Sample.bare Sample.empty_world).2)).1
     = Resolved {| Response.status := 200;
                   Response.headers :=
                     [("content-type", "text/plain;charset=UTF-8"); ("etag", "1")];
                   Response.body := "bare" |}.
Proof.
  assert (59000 <= (ttl_of Sample.proxied - 1) * 1000) as Hd by (vm_compute; discriminate).
  assert (0 <= now Sample.empty_world) as Hnow by (vm_compute; discriminate).
  assert (0 <= 59000) as Hpos by lia.
  assert (now Sample.empty_world + 59000 <= JS.MAX_SAFE_INTEGER) as Hlate
    by (vm_compute; discriminate).
  assert (0 <= ttl_of Sample.proxied) as Httl by (vm_compute; discriminate).
  assert (now Sample.empty_world + ttl_of Sample.proxied * 1000 <= JS.MAX_SAFE_INTEGER)
    as Hsafe by (vm_compute; discriminate).
  split; [exact Hd|]. split; [exact Hsafe|].
  destruct (put_then_match_decision Sample.Date_parse Sample.remoteRequest Sample.proxied
              None Sample.bare 59000 Sample.empty_world Hnow Hpos Hlate Httl Hsafe)
    as (Hres & _ & Hfresh & _).
  split.
  - destruct (Hfresh eq_refl Hd) as [-> _]. reflexivity.
  - rewrite Hres. vm_compute. reflexivity.
Defined.

Lemma remaining_time_of_current_shape_witness :
  kv Sample.fresh_world !! url Sample.remoteRequest
    = Some {| value := Sample.current; expirationTtl := EXPIRATION_TTL |}
  /\ 0 <= 500
  /\ exists r',
       (KVCacheStoreType.match_ (KVCacheStore Sample.Date_parse 60) Sample.remoteRequest
          (tick 500 Sample.fresh_world)).1.2 = JS.Num r'
       /\ 0 <= r' <= 59.
Proof.
  assert (kv Sample.fresh_world !! url Sample.remoteRequest
          = Some {| value := Sample.current; expirationTtl := EXPIRATION_TTL |}) as Hk
    by (vm_compute; reflexivity).
  assert (0 <= 500) as Hd by lia.
  assert (0 <= now Sample.fresh_world) as Hnow by (vm_compute; discriminate).
  assert (now Sample.fresh_world + 500 <= JS.MAX_SAFE_INTEGER) as Hlate
    by (vm_compute; discriminate).
  assert (0 <= 60000 <= JS.MAX_SAFE_INTEGER) as Hsafe
    by (split; vm_compute; discriminate).
  split; [exact Hk|]. split; [exact Hd|].
  destruct (remaining_time_of_current_shape Sample.Date_parse Sample.remoteRequest 60
              Sample.fresh_world _ 60000 500 Hk eq_refl Hd Hnow Hlate Hsafe)
    as (r & r' & _ & Hr' & -> & Hbound & _).
  exists r'. split; [exact Hr' | exact Hbound].
Defined.

Lemma unparsable_cacheTtl_is_a_hit_witness :
  Sample.Date_parse "soon" = JS.NaN
  /\ (SWR.match_ (makeSwr Sample.Date_parse Sample.remoteRequest None)
        None Sample.not_a_date_world).1
     = Resolved (restoreResponse Sample.not_a_date)
  /\ scheduled (trace (SWR.match_ (makeSwr Sample.Date_parse Sample.remoteRequest None)
                         None Sample.not_a_date_world).2) = [].
Proof.
  assert (Sample.Date_parse "soon" = JS.NaN) as Hnan by reflexivity.
  assert (kv Sample.not_a_date_world !! url Sample.remoteRequest
          = Some {| value := Sample.not_a_date; expirationTtl := EXPIRATION_TTL |}) as Hk
    by (vm_compute; reflexivity).
  destruct (unparsable_cacheTtl_is_a_hit Sample.Date_parse Sample.remoteRequest None None
              60 Sample.not_a_date_world _ "soon" Hk eq_refl eq_refl Hnan)
    as (_ & Hres & Hquiet).
  split; [exact Hnan|]. split; [exact Hres|].
  destruct (Hquiet eq_refl) as [-> _]. reflexivity.
Defined.

Lemma unreachable_origin_witness :
  (forall n r, origin Sample.down_world n r = NetworkError)
  /\ (SWR.match_ (makeSwr Sample.Date_parse Sample.remoteRequest Sample.proxied)
        None Sample.down_world).1
     = Resolved (restoreResponse Sample.current)
  /\ (RevalidateFunc.run
        (SWR.revalidate (makeSwr Sample.Date_parse Sample.remoteRequest Sample.proxied))
        Sample.down_world).1 = Rejected.
Proof.
  assert (forall n r, origin Sample.down_world n r = NetworkError) as Hdown
    by (intros n r; reflexivity).
  destruct (unreachable_origin Sample.Date_parse Sample.remoteRequest Sample.proxied
              None Sample.down_world Hdown) as (Hhit & _ & _ & Hrun & _).
  split; [exact Hdown|]. split; [|exact Hrun].
  apply (Hhit {| value := Sample.current; expirationTtl := EXPIRATION_TTL |}).
  vm_compute. reflexivity.
Defined.

Lemma later_revalidation_wins_witness :
  arriving (Sample.answered 404 "gone") = Fetched (Sample.page 404 "gone")
  /\ kv (RevalidateFunc.resume
           (SWR.revalidate (makeSwr Sample.Date_parse Sample.remoteRequest None))
           (Sample.answered 404 "gone")
           (RevalidateFunc.resume
              (SWR.revalidate (makeSwr Sample.Date_parse Sample.remoteRequest None))
              (Sample.answered 200 "new") Sample.fresh_world).2).2
       !! url Sample.remoteRequest = None.
Proof.
  assert (arriving (Sample.answered 404 "gone") = Fetched (Sample.page 404 "gone")) as Hres
    by reflexivity.
  split; [exact Hres|].
  rewrite (later_revalidation_wins Sample.Date_parse Sample.remoteRequest None
             (Sample.answered 200 "new") (Sample.answered 404 "gone") _
             Sample.fresh_world Hres ltac:(right; cbn; lia)).
  vm_compute. reflexivity.
Defined.

Lemma clear_then_match_misses_witness :
  (SWR.match_ (makeSwr Sample.Date_parse Sample.remoteRequest None)
     (Sample.on false on_error)
     (SWR.clear (makeSwr Sample.Date_parse Sample.remoteRequest None) Sample.fresh_world).2).1
  = Thrown (NotMatchedError.new "Caches are not matched" Sample.remoteRequest).
Proof.
  destruct (clear_then_match_misses Sample.Date_parse Sample.remoteRequest None
              (Sample.on false on_error) Sample.fresh_world) as (_ & _ & _ & Hmatch).
  exact Hmatch.
Defined.

Lemma console_follows_debug_witness :
  debug_of Sample.verbose = true
  /\ console_lines (trace (SWR.match_ (makeSwr Sample.Date_parse Sample.remoteRequest
                                         Sample.verbose)
                             None Sample.empty_world).2)
     = ["revalidate the cache"; "no hit caches"].
Proof.
  assert (debug_of Sample.verbose = true) as Hd by reflexivity.
  split; [exact Hd|].
  destruct (console_follows_debug Sample.Date_parse Sample.remoteRequest Sample.verbose
              None (Sample.page 200 "") (Sample.answered 200 "") Sample.empty_world)
    as [_ Hon].
  destruct (Hon Hd) as (_ & _ & Hmiss). rewrite (Hmiss eq_refl). reflexivity.
Defined.

Lemma cache_is_keyed_by_url_alone_witness :
  url Sample.headRequest = url Sample.remoteRequest
  /\ Sample.headRequest <> Sample.remoteRequest
  /\ (SWR.match_ (makeSwr Sample.Date_parse Sample.headRequest None) None
        (tick 0 (SWR.put (makeSwr Sample.Date_parse Sample.remoteRequest Sample.proxied)
                   (Sample.page 200 "fresh") Sample.empty_world).2)).1
     = Resolved {| Response.status := 200;
                   Response.headers := [("content-type", "text/html")];
                   Response.body := "fresh" |}.
Proof.
  assert (url Sample.headRequest = url Sample.remoteRequest) as Hurl by reflexivity.
  split; [exact Hurl|]. split; [discriminate|].
  rewrite (proj1 (cache_is_keyed_by_url_alone Sample.Date_parse Sample.remoteRequest
                    Sample.headRequest Sample.proxied None None (Sample.page 200 "fresh")
                    0 Sample.empty_world Hurl)).
  vm_compute. reflexivity.
Defined.

Lemma miss_then_revalidated_hit_witness :
  kv Sample.empty_world !! url Sample.remoteRequest = None
  /\ now Sample.empty_world + ttl_of Sample.proxied * 1000 <= JS.MAX_SAFE_INTEGER
  /\ (SWR.match_ (makeSwr Sample.Date_parse Sample.remoteRequest Sample.proxied) None
        (tick 1000
           (RevalidateFunc.resume
              (SWR.revalidate (makeSwr Sample.Date_parse Sample.remoteRequest Sample.proxied))
              (revalidation (proxy_of Sample.proxied) Sample.remoteRequest Sample.empty_world)
              (SWR.match_ (makeSwr Sample.Date_parse Sample.remoteRequest Sample.proxied)
                 None Sample.empty_world).2).2)).1
     = Resolved {| Response.status := 200;
                   Response.headers := [("content-type", "text/html")];
                   Response.body := "origin, first answer" |}.
Proof.
  assert (kv Sample.empty_world !! url Sample.remoteRequest = None) as Hmiss by reflexivity.
  assert (0 <= now Sample.empty_world) as Hnow by (vm_compute; discriminate).
  assert (0 <= 1000) as Hpos by lia.
  assert (now Sample.empty_world + 1000 <= JS.MAX_SAFE_INTEGER) as Hlate
    by (vm_compute; discriminate).
  assert (0 <= ttl_of Sample.proxied) as Httl by (vm_compute; discriminate).
  assert (now Sample.empty_world + ttl_of Sample.proxied * 1000 <= JS.MAX_SAFE_INTEGER)
    as Hsafe by (vm_compute; discriminate).
  split; [exact Hmiss|]. split; [exact Hsafe|].
  destruct (miss_then_revalidated_hit Sample.Date_parse Sample.remoteRequest Sample.proxied
              None None (Sample.page 200 "origin, first answer") 1000 Sample.empty_world
              Hmiss eq_refl ltac:(cbn; lia) Hnow Hpos Hlate Httl Hsafe) as (_ & Hhit & _).
  rewrite Hhit. vm_compute. reflexivity.
Defined.

Lemma stale_hit_then_evicted_witness :
  kv Sample.stale_world !! url Sample.remoteRequest
    = Some {| value := Sample.current; expirationTtl := EXPIRATION_TTL |}
  /\ (SWR.match_ (makeSwr Sample.Date_parse Sample.remoteRequest Sample.proxied)
        (Sample.on false on_error)
        (tick 1000
           (RevalidateFunc.resume
              (SWR.revalidate (makeSwr Sample.Date_parse Sample.remoteRequest Sample.proxied))
              (revalidation (proxy_of Sample.proxied) Sample.remoteRequest Sample.stale_world)
              (SWR.match_ (makeSwr Sample.Date_parse Sample.remoteRequest Sample.proxied)
                 None Sample.stale_world).2).2)).1
     = Thrown (NotMatchedError.new "Caches are not matched" Sample.remoteRequest).
Proof.
  assert (kv Sample.stale_world !! url Sample.remoteRequest
          = Some {| value := Sample.current; expirationTtl := EXPIRATION_TTL |}) as Hk
    by (vm_compute; reflexivity).
  split; [exact Hk|].
  destruct (stale_hit_then_evicted Sample.Date_parse Sample.remoteRequest Sample.proxied
              None (Sample.on false on_error) _ (Sample.page 404 "origin, first answer")
              1000 Sample.stale_world Hk (or_intror eq_refl) eq_refl
              ltac:(cbn; lia) eq_refl) as (_ & _ & _ & Herr).
  exact Herr.
Defined.

Lemma defaults_of_makeSwr_witness :
  fetches (trace (SWR.match_ (makeSwr Sample.Date_parse Sample.remoteRequest None)
                    None Sample.empty_world).2)
  = [Sample.remoteRequest; Sample.remoteRequest].
Proof.
  destruct (defaults_of_makeSwr Sample.Date_parse Sample.remoteRequest None
              (Sample.page 200 "") Sample.empty_world (or_introl eq_refl))
    as (_ & _ & Hmiss).
  destruct (Hmiss eq_refl) as [_ ->]. reflexivity.
Defined.

Lemma freshness_counts_from_storing_witness :
  arriving (revalidation (proxy_of Sample.proxied) Sample.remoteRequest Sample.empty_world)
    = Fetched (Sample.page 200 "origin, first answer")
  /\ (Cached.expireAt ∘ value)
       <$> kv (RevalidateFunc.resume
                 (SWR.revalidate (makeSwr Sample.Date_parse Sample.remoteRequest Sample.proxied))
                 (revalidation (proxy_of Sample.proxied) Sample.remoteRequest
                    Sample.empty_world)
                 (tick 250
                    (SWR.match_ (makeSwr Sample.Date_parse Sample.remoteRequest Sample.proxied)
                       None Sample.empty_world).2)).2 !! url Sample.remoteRequest
     = Some (Some 61250).
Proof.
  assert (arriving (revalidation (proxy_of Sample.proxied) Sample.remoteRequest
                      Sample.empty_world)
          = Fetched (Sample.page 200 "origin, first answer")) as Hres by reflexivity.
  split; [exact Hres|].
  destruct (freshness_counts_from_storing Sample.Date_parse Sample.remoteRequest
              Sample.proxied None (Sample.page 200 "origin, first answer") 250
              Sample.empty_world I Hres ltac:(cbn; lia)) as [_ ->].
  reflexivity.
Defined.
